(** * fastembed: the embedding strategies of [fastembed/embedding.py]

    A shallow embedding of the module: the artifact fetcher
    ([DefaultEmbedding.download_file_from_gcs]), the archive cache
    ([DefaultEmbedding.decompress_to_cache]) and the constructors and
    [encode] methods of the strategy classes.

    Python code is effectful and may raise, so every operation is a
    computation in a state-and-exception monad over a [World] (file system,
    HTTP requests issued, standard output, progress bars, models loaded).
    The libraries the module calls (requests, tarfile, tempfile, tqdm,
    transformers, torch) are collaborators whose answers come from an
    environment [Env]. *)

From Stdlib Require Import ZArith QArith Qcanon Bool Lia.
From stdpp Require Import base numbers option list strings gmap pretty.

Local Open Scope string_scope.
Local Open Scope Z_scope.
Local Open Scope list_scope.

#[local] Set Warnings "-register-all".

(** ** Python exceptions *)

Module Py.

(** The exception classes the module raises or may receive from its
    collaborators. *)
Inductive ExcClass :=
  | TypeError | ValueError | ImportError | NotImplementedError
  | OSError | FileNotFoundError | FileExistsError | PermissionError
  | TarError | ReadError | CompressionError | ExtractError
  | RequestException | ConnectionError | ChunkedEncodingError
  | RuntimeError
  | KeyboardInterrupt | SystemExit.

(** An exception value: its class, [str(e)], and the exception that was being
    handled when it was raised ([__context__]). *)
Inductive PyExc :=
  | Exc (cls : ExcClass) (msg : string) (context : option PyExc).

Definition exc_class (e : PyExc) : ExcClass := let 'Exc c _ _ := e in c.
Definition exc_str (e : PyExc) : string := let 'Exc _ m _ := e in m.
Definition exc_context (e : PyExc) : option PyExc := let 'Exc _ _ c := e in c.

(** [isinstance(e, Exception)]: everything but the two classes that derive
    from [BaseException] directly. *)
Definition isinstance_Exception (e : PyExc) : bool :=
  match exc_class e with
  | KeyboardInterrupt | SystemExit => false
  | _ => true
  end.

(** [isinstance(e, ImportError)]. *)
Definition isinstance_ImportError (e : PyExc) : bool :=
  match exc_class e with
  | ImportError => true
  | _ => false
  end.

(** [isinstance(e, tarfile.TarError)]: [TarError] and its subclasses. *)
Definition isinstance_TarError (e : PyExc) : bool :=
  match exc_class e with
  | TarError | ReadError | CompressionError | ExtractError => true
  | _ => false
  end.

(** Raising [e'] while [e] is being handled records [e] as its context. *)
Definition with_context (e e' : PyExc) : PyExc :=
  match e' with
  | Exc c m None => Exc c m (Some e)
  | Exc _ _ (Some _) => e'
  end.

(** ** Strings *)

(** [needle in hay]. *)
Fixpoint str_contains (needle hay : string) : bool :=
  String.prefix needle hay ||
  match hay with
  | EmptyString => false
  | String _ rest => str_contains needle rest
  end.

(** [s.endswith(suffix)]. *)
Fixpoint str_endswith (suffix s : string) : bool :=
  String.eqb suffix s ||
  match s with
  | EmptyString => false
  | String _ rest => str_endswith suffix rest
  end.

(** [s.startswith(p)]. *)
Definition str_startswith (p s : string) : bool := String.prefix p s.

(** ** Calls *)

(** Error messages are worded as CPython 3.10 and 3.11 word them. *)

Section Values.
Variable Tensor : Type.

(** The values that cross a call boundary in this module. *)
Inductive Value :=
  | VNone
  | VBool (b : bool)
  | VStr (s : string)
  | VTensor (t : Tensor)
  | VInstance (cls : string)
  | VClass (cls : string).

Definition Bindings := list (string * Value).

Fixpoint lookup_arg (k : string) (bs : Bindings) : option Value :=
  match bs with
  | [] => None
  | (k', v) :: bs' => if String.eqb k k' then Some v else lookup_arg k bs'
  end.

Definition bound (k : string) (bs : Bindings) : bool :=
  match lookup_arg k bs with Some _ => true | None => false end.

Definition mem_name (k : string) (ks : list string) : bool :=
  existsb (String.eqb k) ks.

(** Positional arguments fill the parameters from the left. *)
Fixpoint bind_positional (params : list string) (pos : list Value) : Bindings :=
  match params, pos with
  | p :: params', v :: pos' => (p, v) :: bind_positional params' pos'
  | _, _ => []
  end.

(** Keyword arguments: the name must be a parameter and must not have a
    value yet. *)
Fixpoint bind_keywords (fname : string) (params : list string)
    (bs : Bindings) (kw : Bindings) : PyExc + Bindings :=
  match kw with
  | [] => inr bs
  | (k, v) :: kw' =>
      if negb (mem_name k params) then
        inl (Exc TypeError
               (fname +:+ "() got an unexpected keyword argument '" +:+ k +:+ "'") None)
      else if bound k bs then
        inl (Exc TypeError
               (fname +:+ "() got multiple values for argument '" +:+ k +:+ "'") None)
      else bind_keywords fname params (bs ++ [(k, v)])%list kw'
  end.

(** Parameters left without a value take their default; one without a
    default is missing. *)
Fixpoint bind_defaults (fname : string) (params : list string)
    (defaults : Bindings) (bs : Bindings) : PyExc + Bindings :=
  match params with
  | [] => inr bs
  | p :: params' =>
      if bound p bs then bind_defaults fname params' defaults bs
      else match lookup_arg p defaults with
           | Some d => bind_defaults fname params' defaults (bs ++ [(p, d)])%list
           | None =>
               inl (Exc TypeError
                      (fname +:+ "() missing 1 required positional argument: '" +:+ p +:+ "'")
                      None)
           end
  end.

(** Binding the positional and keyword arguments of a call to the
    parameters of a function that has no variadic parameter, in the
    interpreter's order:
    positional arguments, keyword arguments, the count of positional
    arguments, defaults. *)
Definition bind_args (fname : string) (params : list string) (defaults : Bindings)
    (pos : list Value) (kw : Bindings) : PyExc + Bindings :=
  match bind_keywords fname params (bind_positional params pos) kw with
  | inl e => inl e
  | inr bs =>
      if (length params <? length pos)%nat then
        inl (Exc TypeError
               (fname +:+ "() takes " +:+ pretty (length params) +:+
                " positional arguments but " +:+ pretty (length pos) +:+ " were given")
               None)
      else bind_defaults fname params defaults bs
  end.
End Values.

Arguments VNone {Tensor}.
Arguments VBool {Tensor} b.
Arguments VStr {Tensor} s.
Arguments VTensor {Tensor} t.
Arguments VInstance {Tensor} cls.
Arguments VClass {Tensor} cls.
Arguments lookup_arg {Tensor} k bs.
Arguments bind_args {Tensor} fname params defaults pos kw.

(** ** Classes *)

(** A class statement: its name, its base when that is a class of this
    module ([ABC] itself declares nothing), the names its body defines, and
    those among them decorated with [@abstractmethod]. *)
Inductive PyClass :=
  | Class (name : string) (base : option PyClass)
          (namespace : list string) (abstract_here : list string).

Definition class_name (c : PyClass) : string := let 'Class n _ _ _ := c in n.

(** [cls.__abstractmethods__] as [ABCMeta] computes it: the abstract methods
    of the class body, and the inherited ones the body does not redefine. *)
Fixpoint abstractmethods (c : PyClass) : list string :=
  match c with
  | Class _ base namespace abstract_here =>
      (abstract_here ++
      match base with
      | None => []
      | Some b =>
          List.filter (fun m => negb (existsb (String.eqb m) namespace)) (abstractmethods b)
      end)%list
  end.

End Py.

Import Py.

(** ** The world *)

(** A path of the file system names a regular file or a directory. *)
Inductive Node :=
  | File (content : list Byte.byte)
  | Dir.

(** A [tqdm] progress bar. *)
Record Bar := mkBar {
  bar_total : Z;
  bar_n : Z;
  bar_closed : bool
}.

Record World := mkWorld {
  fs : gmap string Node;            (* the file system, by path *)
  requests_log : list string;       (* the URLs of the HTTP GETs issued *)
  stdout : list string;             (* the lines printed *)
  bars : list Bar;                  (* the progress bars created *)
  loaded : list (string * string)   (* the (loader, name) of the models loaded *)
}.

Definition set_fs (f : gmap string Node) (w : World) : World :=
  mkWorld f (requests_log w) (stdout w) (bars w) (loaded w).
Definition set_requests_log (l : list string) (w : World) : World :=
  mkWorld (fs w) l (stdout w) (bars w) (loaded w).
Definition set_stdout (l : list string) (w : World) : World :=
  mkWorld (fs w) (requests_log w) l (bars w) (loaded w).
Definition set_bars (l : list Bar) (w : World) : World :=
  mkWorld (fs w) (requests_log w) (stdout w) l (loaded w).
Definition set_loaded (l : list (string * string)) (w : World) : World :=
  mkWorld (fs w) (requests_log w) (stdout w) (bars w) l.

(** ** Computations that may raise *)

Inductive Outcome (A : Type) :=
  | Return (a : A)
  | Raise (e : PyExc).
Arguments Return {A} a.
Arguments Raise {A} e.

Definition M (A : Type) : Type := World -> Outcome A * World.

Definition ret {A} (a : A) : M A := fun w => (Return a, w).
Definition raise {A} (e : PyExc) : M A := fun w => (Raise e, w).
Definition bind {A B} (m : M A) (k : A -> M B) : M B :=
  fun w =>
    match m w with
    | (Return a, w') => k a w'
    | (Raise e, w') => (Raise e, w')
    end.

Notation "'let*' x ':=' m 'in' k" := (bind m (fun x => k))
  (at level 10, x pattern, m at level 100, k at level 200).

(** [try: body except ...: handler].  [handler e] is [None] when no [except]
    clause matches [e], which then propagates; an exception raised by the
    handler carries [e] as its context. *)
Definition try_except {A} (body : M A) (handler : PyExc -> option (M A)) : M A :=
  fun w =>
    match body w with
    | (Return a, w') => (Return a, w')
    | (Raise e, w') =>
        match handler e with
        | None => (Raise e, w')
        | Some h =>
            match h w' with
            | (Return a, w'') => (Return a, w'')
            | (Raise e', w'') => (Raise (with_context e e'), w'')
            end
        end
    end.

(** [try: body finally: final]: [final] runs however [body] ends. *)
Definition try_finally {A} (body : M A) (final : M unit) : M A :=
  fun w =>
    match body w with
    | (r, w') =>
        match final w' with
        | (Return _, w'') => (r, w'')
        | (Raise e, w'') => (Raise e, w'')
        end
    end.

(** How a block of statements ends when it does not raise: it falls through
    to the next statement, or it executes [return r]. *)
Inductive Flow (R : Type) :=
  | Fallthrough
  | Returned (r : R).
Arguments Fallthrough {R}.
Arguments Returned {R} r.

(** ** The collaborators *)

(** The [content-length] header as [int(...)] reads it. *)
Inductive ContentLength :=
  | CLMissing
  | CLInt (n : Z)
  | CLMalformed (raw : string).

(** What [response.iter_content] yields: chunks, and possibly an exception
    that ends the stream. *)
Inductive StreamEvent :=
  | Chunk (data : list Byte.byte)
  | StreamRaise (e : PyExc).

Record Response := mkResponse {
  status_code : Z;
  content_length : ContentLength;
  iter_content : list StreamEvent
}.

(** Reading an archive: the members that get extracted, in order, and the
    error, if any, that stops the reading (at opening when there is no
    member before it). *)
Record TarResult := mkTarResult {
  tar_members : list (string * Node);
  tar_error : option PyExc
}.

(** A pretrained model or tokenizer, identified by the class that loaded it
    and the name it was loaded by. *)
Record Handle := mkHandle {
  h_loader : string;
  h_name : string
}.

Record BatchDict (Tensor : Type) := mkBatchDict {
  input_ids : Tensor;
  attention_mask : Tensor
}.
Arguments mkBatchDict {Tensor} _ _.
Arguments input_ids {Tensor} _.
Arguments attention_mask {Tensor} _.

Record Env (Tensor : Type) := mkEnv {
  (* requests: the answer to a GET of a URL *)
  requests_response : string -> PyExc + Response;
  (* the operating system's refusal, if any, to open a path for writing *)
  open_error : string -> option PyExc;
  (* tempfile: gettempdir() and the random names mkdtemp tries *)
  gettempdir : string;
  candidate_names : list string;
  (* tarfile: the reading of a file's bytes as a gzip-compressed archive *)
  tar_read : list Byte.byte -> TarResult;
  (* the modules that can be imported *)
  importable : string -> bool;
  (* the refusal, if any, of a loader to load a name *)
  load_error : string -> string -> option PyExc;
  (* SentenceTransformer.encode *)
  st_encode : Handle -> list string -> PyExc + Tensor;
  (* calling a tokenizer; the forward pass of a model *)
  tokenizer_call : Handle -> list string -> PyExc + BatchDict Tensor;
  model_forward : Handle -> BatchDict Tensor -> PyExc + Tensor
}.
Arguments requests_response {Tensor} _ _.
Arguments open_error {Tensor} _ _.
Arguments gettempdir {Tensor} _.
Arguments candidate_names {Tensor} _.
Arguments tar_read {Tensor} _ _.
Arguments importable {Tensor} _ _.
Arguments load_error {Tensor} _ _ _.
Arguments st_encode {Tensor} _ _ _.
Arguments tokenizer_call {Tensor} _ _ _.
Arguments model_forward {Tensor} _ _ _.

(** The tensor operations of [average_pool]. *)
Class TorchPool (Tensor : Type) := mkTorchPool {
  unsqueeze_last : Tensor -> Tensor;             (* x[..., None] *)
  to_bool : Tensor -> Tensor;                    (* x.bool() *)
  invert : Tensor -> Tensor;                     (* ~x *)
  masked_fill : Tensor -> Tensor -> Q -> Tensor; (* x.masked_fill(mask, value) *)
  sum_dim1 : Tensor -> Tensor;                   (* x.sum(dim=1) *)
  true_divide : Tensor -> Tensor -> Tensor       (* x / y *)
}.

(** The tensor operations of the scoring in [encode]. *)
Class TorchScore (Tensor : Type) := mkTorchScore {
  normalize_p2_dim1 : Tensor -> Tensor;          (* F.normalize(x, p=2, dim=1) *)
  first_row : Tensor -> Tensor;                  (* x[:1] *)
  other_rows : Tensor -> Tensor;                 (* x[1:] *)
  transpose : Tensor -> Tensor;                  (* x.T *)
  matmul : Tensor -> Tensor -> Tensor;           (* x @ y *)
  mul_scalar : Tensor -> Z -> Tensor             (* x * k *)
}.

(** ** The library calls of the module *)

Section Library.
Context {Tensor : Type} (E : Env Tensor).

Definition print (line : string) : M unit :=
  fun w => (Return tt, set_stdout (stdout w ++ [line]) w).

(** [os.path.exists(path)]. *)
Definition os_path_exists (path : string) : M bool :=
  fun w => (Return (match fs w !! path with Some _ => true | None => false end), w).

(** [os.path.isfile(path)]. *)
Definition os_path_isfile (path : string) : M bool :=
  fun w => (Return (match fs w !! path with Some (File _) => true | _ => false end), w).

(** [requests.get(url, stream=True)]: the request is issued, then the
    answer arrives or the connection fails. *)
Definition requests_get (url : string) : M Response :=
  fun w =>
    let w' := set_requests_log (requests_log w ++ [url]) w in
    match requests_response E url with
    | inl e => (Raise e, w')
    | inr r => (Return r, w')
    end.

(** [int(response.headers.get("content-length", 0))]. *)
Definition int_content_length (r : Response) : M Z :=
  match content_length r with
  | CLMissing => ret 0
  | CLInt n => ret n
  | CLMalformed raw =>
      raise (Exc ValueError
               ("invalid literal for int() with base 10: '" +:+ raw +:+ "'") None)
  end.

(** [tqdm(total=total, unit="iB", unit_scale=True)]: the new bar, named by
    its position among the bars of the world. *)
Definition tqdm (total : Z) : M nat :=
  fun w => (Return (length (bars w)), set_bars (bars w ++ [mkBar total 0 false]) w).

(** [progress_bar.update(n)]. *)
Definition bar_update (b : nat) (n : Z) : M unit :=
  fun w =>
    (Return tt,
     set_bars (alter (fun x => mkBar (bar_total x) (bar_n x + n) (bar_closed x)) b (bars w)) w).

(** [progress_bar.close()]. *)
Definition bar_close (b : nat) : M unit :=
  fun w =>
    (Return tt,
     set_bars (alter (fun x => mkBar (bar_total x) (bar_n x) true) b (bars w)) w).

(** [open(path, "wb")]: the file is created, or truncated. *)
Definition open_wb (path : string) : M unit :=
  fun w =>
    match open_error E path with
    | Some e => (Raise e, w)
    | None => (Return tt, set_fs (<[path := File []]> (fs w)) w)
    end.

(** [file.write(chunk)] on a file opened by [open_wb]. *)
Definition file_write (path : string) (chunk : list Byte.byte) : M unit :=
  fun w =>
    match fs w !! path with
    | Some (File old) => (Return tt, set_fs (<[path := File (old ++ chunk)]> (fs w)) w)
    | _ => (Raise (Exc OSError "write to a file that is not open" None), w)
    end.

(** [tempfile.mkdtemp()]: the first name [<tempdir>/tmp<random>] that does
    not exist yet is created as a directory. *)
Definition mkdtemp_path (name : string) : string :=
  gettempdir E +:+ "/" +:+ "tmp" +:+ name.

Fixpoint mkdtemp_pick (names : list string) (f : gmap string Node) : option string :=
  match names with
  | [] => None
  | n :: names' =>
      match f !! mkdtemp_path n with
      | None => Some (mkdtemp_path n)
      | Some _ => mkdtemp_pick names' f
      end
  end.

Definition tempfile_mkdtemp : M string :=
  fun w =>
    match mkdtemp_pick (candidate_names E) (fs w) with
    | Some p => (Return p, set_fs (<[p := Dir]> (fs w)) w)
    | None =>
        (Raise (Exc FileExistsError "No usable temporary directory name found" None), w)
    end.

(** Extracting one member creates the destination directory when needed
    and writes the member under it. *)
Definition extract_member (dest : string) (f : gmap string Node)
    (m : string * Node) : gmap string Node :=
  <[dest +:+ "/" +:+ m.1 := m.2]> (<[dest := Dir]> f).

(** [with tarfile.open(targz_path, "r:gz") as tar: tar.extractall(path=dest)]. *)
Definition tarfile_extractall (targz_path dest : string) : M unit :=
  fun w =>
    match fs w !! targz_path with
    | Some (File content) =>
        let r := tar_read E content in
        let w' := set_fs (foldl (extract_member dest) (fs w) (tar_members r)) w in
        match tar_error r with
        | Some e => (Raise e, w')
        | None => (Return tt, w')
        end
    | _ =>
        (Raise (Exc FileNotFoundError
                  ("[Errno 2] No such file or directory: '" +:+ targz_path +:+ "'") None), w)
    end.

(** A path is [dir] itself or lies below it. *)
Definition under (dir path : string) : bool :=
  String.eqb dir path || String.prefix (dir +:+ "/") path.

(** [shutil.rmtree(dir)]. *)
Definition shutil_rmtree (dir : string) : M unit :=
  fun w =>
    match fs w !! dir with
    | Some Dir =>
        (Return tt, set_fs (filter (fun kv => under dir kv.1 = false) (fs w)) w)
    | Some (File _) =>
        (Raise (Exc OSError ("[Errno 20] Not a directory: '" +:+ dir +:+ "'") None), w)
    | None =>
        (Raise (Exc FileNotFoundError
                  ("[Errno 2] No such file or directory: '" +:+ dir +:+ "'") None), w)
    end.

(** [import name]. *)
Definition import_module (name : string) : M unit :=
  if importable E name then ret tt
  else raise (Exc ImportError ("No module named '" +:+ name +:+ "'") None).

(** [Loader(name)] and [Loader.from_pretrained(name)]. *)
Definition load_pretrained (loader name : string) : M Handle :=
  fun w =>
    let w' := set_loaded (loaded w ++ [(loader, name)]) w in
    match load_error E loader name with
    | Some e => (Raise e, w')
    | None => (Return (mkHandle loader name), w')
    end.

(** Lifting an answer of the environment. *)
Definition answer {A} (r : PyExc + A) : M A :=
  match r with
  | inl e => raise e
  | inr a => ret a
  end.

(** *** Functions and classes as objects *)

Record PyFunction := mkFunction {
  fn_name : string;
  fn_params : list string;
  fn_defaults : Bindings Tensor;
  fn_body : Bindings Tensor -> M (Value Tensor)
}.

(** Calling a function: the arguments are bound, then the body runs. *)
Definition call (f : PyFunction) (pos : list (Value Tensor)) (kw : Bindings Tensor)
    : M (Value Tensor) :=
  match bind_args (fn_name f) (fn_params f) (fn_defaults f) pos kw with
  | inl e => raise e
  | inr bs => fn_body f bs
  end.

(** [obj.f(...)] for a plain function [f] of the class of [obj], and
    [cls.f(...)] for a [@classmethod]: the object, respectively the class,
    is passed as the first positional argument. *)
Definition call_bound (receiver : Value Tensor) (f : PyFunction)
    (pos : list (Value Tensor)) (kw : Bindings Tensor) : M (Value Tensor) :=
  call f (receiver :: pos) kw.

(** [cls(...)]: a class with abstract methods left cannot be instantiated;
    otherwise [__init__] runs. *)
Definition instantiate {A} (cls : PyClass) (init : M A) : M A :=
  match abstractmethods cls with
  | [] => init
  | m :: _ =>
      raise (Exc TypeError
               ("Can't instantiate abstract class " +:+ class_name cls +:+
                " with abstract method " +:+ m) None)
  end.
End Library.

Arguments PyFunction : clear implicits.

(** ** The classes of [fastembed/embedding.py] *)

(** Each class is a module: [cls] is the class statement, [construct] the
    call of the class, and the methods keep their names. *)

(** [class Embedding(ABC)], with [encode] abstract. *)
Module Embedding.
Definition cls : PyClass :=
  Class "Embedding" None ["encode"] ["encode"].
End Embedding.

Module DefaultEmbedding.
Definition cls : PyClass :=
  Class "DefaultEmbedding" (Some Embedding.cls)
        ["download_file_from_gcs"; "decompress_to_cache"; "__init__"] [].

Section Methods.
Context {Tensor : Type} (E : Env Tensor).

(** The loop of [download_file_from_gcs] over [response.iter_content]:
    every chunk that is not empty advances the bar, when there is one, and
    is written to the file. *)
Fixpoint write_chunks (output_path : string) (progress_bar : option nat)
    (events : list StreamEvent) : M unit :=
  match events with
  | [] => ret tt
  | StreamRaise e :: _ => raise e
  | Chunk chunk :: events' =>
      let* _ :=
        match chunk with
        | [] => ret tt
        | _ :: _ =>
            let* _ :=
              match progress_bar with
              | Some b => bar_update b (Z.of_nat (length chunk))
              | None => ret tt
              end in
            file_write output_path chunk
        end in
      write_chunks output_path progress_bar events'
  end.

(** The [try] statement of [download_file_from_gcs]: the body streams the
    response into the file; [except Exception] reports and returns [None];
    [finally] closes the bar, when there is one. *)
Definition download_try (output_path : string) (progress_bar : option nat)
    (response : Response) : M (Flow (option string)) :=
  try_finally
    (try_except
       (let* _ := open_wb E output_path in
        let* _ := write_chunks output_path progress_bar (iter_content response) in
        ret Fallthrough)
       (fun e =>
          if isinstance_Exception e then
            Some (let* _ := print ("An error occurred while trying to download the file: "
                                   +:+ exc_str e) in
                  ret (Returned None))
          else None))
    (match progress_bar with
     | Some b => bar_close b
     | None => ret tt
     end).

(** [download_file_from_gcs(url, output_path, show_progress)]; the result is
    the path, or [None]. *)
Definition download_file_from_gcs (url output_path : string) (show_progress : bool)
    : M (option string) :=
  let* there := os_path_exists output_path in
  if there then ret (Some output_path)
  else
    let* response := requests_get E url in
    if status_code response =? 403 then
      let* _ := print "Authentication error: you do not have permission to access this resource." in
      ret None
    else if negb (status_code response =? 200) then
      let* _ := print ("HTTP error " +:+ pretty (status_code response) +:+
                       " while trying to download the file.") in
      ret None
    else
      let* total_size_in_bytes := int_content_length response in
      let* _ :=
        if total_size_in_bytes =? 0 then
          print ("Warning: Content-length header is missing or zero in the response from "
                 +:+ url +:+ ".")
        else ret tt in
      let* progress_bar :=
        if negb (total_size_in_bytes =? 0) && show_progress then
          let* b := tqdm total_size_in_bytes in ret (Some b)
        else ret None in
      let* flow := download_try output_path progress_bar response in
      match flow with
      | Returned r => ret r
      | Fallthrough => ret (Some output_path)
      end.

(** [decompress_to_cache(targz_path, cache_dir)]. *)
Definition decompress_to_cache (targz_path : string) (cache_dir : option string)
    : M string :=
  let* is_file := os_path_isfile targz_path in
  if negb is_file then
    raise (Exc ValueError (targz_path +:+ " does not exist or is not a file.") None)
  else if negb (str_endswith ".tar.gz" targz_path) then
    raise (Exc ValueError (targz_path +:+ " is not a .tar.gz file.") None)
  else
    let* cache_dir :=
      match cache_dir with
      | None => tempfile_mkdtemp E
      | Some d => ret d
      end in
    let* _ :=
      try_except
        (let* _ := tarfile_extractall E targz_path cache_dir in
         print ("Files have been decompressed into " +:+ cache_dir))
        (fun e =>
           if isinstance_TarError e then
             Some (let* _ :=
                     if str_contains "tmp" cache_dir then shutil_rmtree cache_dir
                     else ret tt in
                   raise (Exc ValueError
                            ("An error occurred while decompressing " +:+ targz_path +:+
                             ": " +:+ exc_str e) None))
           else None) in
    ret cache_dir.

(** The two functions as the class body defines them: plain functions,
    whose first parameter is [url], respectively [targz_path].  The bodies
    are embedded for arguments of the types the signatures are written
    for. *)
Definition download_file_from_gcs_def : PyFunction Tensor :=
  mkFunction "DefaultEmbedding.download_file_from_gcs"
    ["url"; "output_path"; "show_progress"]
    [("show_progress", VBool true)]
    (fun bs =>
       match lookup_arg "url" bs, lookup_arg "output_path" bs,
             lookup_arg "show_progress" bs with
       | Some (VStr url), Some (VStr output_path), Some (VBool show_progress) =>
           let* r := download_file_from_gcs url output_path show_progress in
           ret (match r with Some p => VStr p | None => VNone end)
       | _, _, _ =>
           raise (Exc TypeError "download_file_from_gcs: argument of an unexpected type" None)
       end).

Definition decompress_to_cache_def : PyFunction Tensor :=
  mkFunction "DefaultEmbedding.decompress_to_cache"
    ["targz_path"; "cache_dir"]
    [("cache_dir", VNone)]
    (fun bs =>
       match lookup_arg "targz_path" bs, lookup_arg "cache_dir" bs with
       | Some (VStr targz_path), Some VNone =>
           let* d := decompress_to_cache targz_path None in ret (VStr d)
       | Some (VStr targz_path), Some (VStr cache_dir) =>
           let* d := decompress_to_cache targz_path (Some cache_dir) in ret (VStr d)
       | _, _ =>
           raise (Exc TypeError "decompress_to_cache: argument of an unexpected type" None)
       end).

(** [DefaultEmbedding.__init__(self, model_name)]; it sets no attribute. *)
Definition __init__ (self : Value Tensor) (model_name : string) : M unit :=
  let* filepath :=
    call_bound self download_file_from_gcs_def
      [VStr "https://storage.googleapis.com/qdrant-fastembed/fast-all-MiniLM-L6-v2.tar.gz"]
      [("output_path", VStr "fast-all-MiniLM-L6-v2.tar.gz")] in
  let* model_dir :=
    call_bound self decompress_to_cache_def [] [("targz_path", filepath)] in
  ret tt.

(** [DefaultEmbedding(model_name)]. *)
Definition construct (model_name : string) : M (Value Tensor) :=
  instantiate cls
    (let self := VInstance "DefaultEmbedding" in
     let* _ := __init__ self model_name in
     ret self).
End Methods.
End DefaultEmbedding.

Module SentenceTransformersEmbedding.
Definition cls : PyClass :=
  Class "SentenceTransformersEmbedding" (Some Embedding.cls) ["__init__"; "encode"] [].

Section Methods.
Context {Tensor : Type} (E : Env Tensor).

(** The attributes [__init__] sets on [self]. *)
Record Instance := mkInstance { model : Handle }.

(** [SentenceTransformersEmbedding.__init__(self, model_name)]; the result is
    [self] with its attributes set. *)
Definition __init__ (model_name : string) : M Instance :=
  let* _ :=
    try_except (import_module E "sentence_transformers")
      (fun e =>
         if isinstance_ImportError e then
           Some (raise (Exc ImportError
                          "Please install the sentence-transformers package to use this method."
                          None))
         else None) in
  let* loaded_model := load_pretrained E "SentenceTransformer" model_name in
  ret (mkInstance loaded_model).

Definition construct (model_name : string) : M Instance :=
  instantiate cls (__init__ model_name).

(** [SentenceTransformersEmbedding.encode(self, texts)]. *)
Definition encode (self : Instance) (texts : list string) : M Tensor :=
  answer (st_encode E (model self) texts).
End Methods.
End SentenceTransformersEmbedding.

Module GeneralTextEmbedding.
Definition cls : PyClass :=
  Class "GeneralTextEmbedding" (Some Embedding.cls)
        ["average_pool"; "__init__"; "encode"] [].

Section Methods.
Context {Tensor : Type} {pool : TorchPool Tensor} {score : TorchScore Tensor}
  (E : Env Tensor).

(** The attributes [__init__] sets on [self]. *)
Record Instance := mkInstance { tokenizer : Handle; model : Handle }.

(** The body of [average_pool]. *)
Definition average_pool_body (last_hidden_states attention_mask : Tensor) : Tensor :=
  let last_hidden :=
    masked_fill last_hidden_states (invert (to_bool (unsqueeze_last attention_mask))) 0%Q in
  true_divide (sum_dim1 last_hidden) (unsqueeze_last (sum_dim1 attention_mask)).

(** [average_pool] as the class body defines it: two parameters, under
    [@classmethod]. *)
Definition average_pool_def : PyFunction Tensor :=
  mkFunction "GeneralTextEmbedding.average_pool"
    ["last_hidden_states"; "attention_mask"]
    []
    (fun bs =>
       match lookup_arg "last_hidden_states" bs, lookup_arg "attention_mask" bs with
       | Some (VTensor h), Some (VTensor m) => ret (VTensor (average_pool_body h m))
       | _, _ => raise (Exc TypeError "average_pool: argument of an unexpected type" None)
       end).

(** The call [GeneralTextEmbedding.average_pool(h, m)] of [encode]. *)
Definition average_pool (h m : Tensor) : M (Value Tensor) :=
  call_bound (VClass "GeneralTextEmbedding") average_pool_def [VTensor h; VTensor m] [].

(** [GeneralTextEmbedding.__init__(self, model_name)]; the result is [self]
    with its attributes set. *)
Definition __init__ (model_name : string) : M Instance :=
  let* _ :=
    try_except
      (let* _ := import_module E "torch.nn.functional" in
       import_module E "transformers")
      (fun e =>
         if isinstance_ImportError e then
           Some (raise (Exc ImportError
                          "Please install the transformers package with torch to use this method."
                          None))
         else None) in
  let* loaded_tokenizer := load_pretrained E "AutoTokenizer" "thenlper/gte-large" in
  let* loaded_model := load_pretrained E "AutoModel" "thenlper/gte-large" in
  ret (mkInstance loaded_tokenizer loaded_model).

Definition construct (model_name : string) : M Instance :=
  instantiate cls (__init__ model_name).

(** [GeneralTextEmbedding.encode(self, input_texts)]. *)
Definition encode (self : Instance) (input_texts : list string) : M Tensor :=
  let* _ :=
    try_except (import_module E "torch.nn.functional")
      (fun e =>
         if isinstance_ImportError e then
           Some (raise (Exc ImportError "Please install Pytorch to use this method." None))
         else None) in
  let* batch_dict := answer (tokenizer_call E (tokenizer self) input_texts) in
  let* last_hidden_state := answer (model_forward E (model self) batch_dict) in
  let* pooled := average_pool last_hidden_state (attention_mask batch_dict) in
  match pooled with
  | VTensor embeddings =>
      let embeddings := normalize_p2_dim1 embeddings in
      let scores :=
        mul_scalar (matmul (first_row embeddings) (transpose (other_rows embeddings))) 100 in
      ret scores
  | _ => raise (Exc TypeError "encode: average_pool did not return a tensor" None)
  end.
End Methods.
End GeneralTextEmbedding.

Module OpenAIEmbedding.
Definition cls : PyClass :=
  Class "OpenAIEmbedding" (Some Embedding.cls) ["__init__"; "encode"] [].

Section Methods.
Context {Tensor : Type}.

(** [OpenAIEmbedding()]: [__init__] does nothing. *)
Definition construct : M unit :=
  instantiate cls (ret tt).

(** [OpenAIEmbedding.encode(self, texts)]. *)
Definition encode (texts : list string) : M Tensor :=
  raise (Exc NotImplementedError "" None).
End Methods.
End OpenAIEmbedding.

(** ** Tensors in exact arithmetic *)

(** A model of the pooling operations on tensors of rank one to three, as
    nested lists.  Rationals stand for the floating-point entries, and 0 and
    1 for the entries of integer and boolean tensors.  The operations are
    given on the shapes [average_pool] meets: a mask of shape (batch, tokens)
    and hidden states of shape (batch, tokens, width); on other shapes,
    where torch raises, they return their first argument. *)
Module Exact.
Local Open Scope Qc_scope.

Inductive Tensor :=
  | T1 (v : list Qc)
  | T2 (m : list (list Qc))
  | T3 (t : list (list (list Qc))).

Definition truthy (x : Qc) : bool := negb (bool_decide (x = 0)).
Definition of_bool (b : bool) : Qc := if b then 1 else 0.

Definition map_entries (f : Qc -> Qc) (x : Tensor) : Tensor :=
  match x with
  | T1 v => T1 (map f v)
  | T2 m => T2 (map (map f) m)
  | T3 t => T3 (map (map (map f)) t)
  end.

(** [x[..., None]]: every entry becomes a list of one entry. *)
Definition unsqueeze_last (x : Tensor) : Tensor :=
  match x with
  | T1 v => T2 (map (fun a => [a]) v)
  | T2 m => T3 (map (map (fun a => [a])) m)
  | T3 t => T3 t
  end.

Definition to_bool : Tensor -> Tensor := map_entries (fun a => of_bool (truthy a)).
Definition invert : Tensor -> Tensor := map_entries (fun a => of_bool (negb (truthy a))).

(** One token: its mask, of length one, is broadcast over its vector. *)
Definition fill_token (value : Qc) (token mask : list Qc) : list Qc :=
  match mask with
  | [m] => if truthy m then map (fun _ => value) token else token
  | _ => token
  end.

Definition masked_fill (x mask : Tensor) (value : Q) : Tensor :=
  match x, mask with
  | T3 t, T3 k => T3 (zip_with (zip_with (fill_token (Q2Qc value))) t k)
  | _, _ => x
  end.

Definition vadd (a b : list Qc) : list Qc := zip_with Qcplus a b.

Definition width (rows : list (list Qc)) : nat :=
  match rows with
  | r :: _ => length r
  | [] => 0%nat
  end.

(** The sum of the vectors of a sequence. *)
Definition sum_rows (rows : list (list Qc)) : list Qc :=
  foldr vadd (replicate (width rows) 0) rows.

Definition sum_dim1 (x : Tensor) : Tensor :=
  match x with
  | T3 t => T2 (map sum_rows t)
  | T2 m => T1 (map (foldr Qcplus 0) m)
  | T1 v => T1 v
  end.

(** One sequence: its divisor, of length one, is broadcast over its vector. *)
Definition divide_row (row divisor : list Qc) : list Qc :=
  match divisor with
  | [c] => map (fun a => a / c) row
  | _ => row
  end.

Definition true_divide (x y : Tensor) : Tensor :=
  match x, y with
  | T2 a, T2 b => T2 (zip_with divide_row a b)
  | _, _ => x
  end.

#[global] Instance pool : TorchPool Tensor :=
  mkTorchPool Tensor unsqueeze_last to_bool invert masked_fill sum_dim1 true_divide.

(** A token vector after the filling: itself, or zeros when padding. *)
Definition keep_or_zero (t : list Qc) (b : bool) : list Qc :=
  if b then t else replicate (length t) 0.

(** The token vectors of a sequence that the mask does not mark as
    padding. *)
Fixpoint unmasked (tokens : list (list Qc)) (mask : list bool) : list (list Qc) :=
  match tokens, mask with
  | t :: tokens', true :: mask' => t :: unmasked tokens' mask'
  | _ :: tokens', false :: mask' => unmasked tokens' mask'
  | _, _ => []
  end.

(** The mean of the vectors of a sequence that are not padding. *)
Definition masked_mean (tokens : list (list Qc)) (mask : list bool) : list Qc :=
  let kept := unmasked tokens mask in
  map (fun s => s / Qc_of_Z (Z.of_nat (length kept))) (sum_rows kept).

End Exact.

(** ** Observations used in the statements *)

(** The streaming of a response body into [output_path] raises [e]: the file
    cannot be opened for writing, or the iterator raises after some chunks. *)
Definition streaming_raises {Tensor} (E : Env Tensor) (output_path : string)
    (r : Response) (e : PyExc) : Prop :=
  open_error E output_path = Some e \/
  (open_error E output_path = None /\
   exists chunks rest, iter_content r = (map Chunk chunks ++ StreamRaise e :: rest)%list).

(** The size the fetcher reads from a response, when the header can be read. *)
Definition announced_size (r : Response) : option Z :=
  match content_length r with
  | CLMissing => Some 0
  | CLInt n => Some n
  | CLMalformed _ => None
  end.

(** The bars of the world while a download runs over the bars [base] that
    were there before it: with a bar of its own, that bar comes last and is
    the one [progress_bar] names; without, the bars are [base]. *)
Definition bars_during (base : list Bar) (progress_bar : option nat) (l : list Bar) : Prop :=
  match progress_bar with
  | Some b => b = length base /\ exists x, l = (base ++ [x])%list
  | None => l = base
  end.

(** The error of a call that passes three positional arguments to
    [average_pool]. *)
Definition average_pool_arity_error : PyExc :=
  Exc TypeError
      "GeneralTextEmbedding.average_pool() takes 2 positional arguments but 3 were given"
      None.

(** The bytes a stream delivers before it ends or raises. *)
Fixpoint received (events : list StreamEvent) : list Byte.byte :=
  match events with
  | [] => []
  | Chunk data :: events' => data ++ received events'
  | StreamRaise _ :: _ => []
  end.

(** The exception, if any, that ends a stream. *)
Fixpoint stream_error (events : list StreamEvent) : option PyExc :=
  match events with
  | [] => None
  | Chunk _ :: events' => stream_error events'
  | StreamRaise e :: _ => Some e
  end.

(** A bar advanced by [k], and a bar advanced by [k] and closed. *)
Definition advanced (k : Z) (x : Bar) : Bar :=
  mkBar (bar_total x) (bar_n x + k) (bar_closed x).
Definition finished (k : Z) (x : Bar) : Bar :=
  mkBar (bar_total x) (bar_n x + k) true.

(** What the [try] statement of the fetcher makes of a stream: its result,
    and the line it prints. *)
Definition stream_result (events : list StreamEvent) : Outcome (Flow (option string)) :=
  match stream_error events with
  | None => Return Fallthrough
  | Some e => if isinstance_Exception e then Return (Returned None) else Raise e
  end.

Definition stream_report (events : list StreamEvent) : list string :=
  match stream_error events with
  | None => []
  | Some e =>
      if isinstance_Exception e
      then ["An error occurred while trying to download the file: " +:+ exc_str e]
      else []
  end.

(** What the fetcher returns once it streams, and the warning it prints
    before, for a response announced as [n] bytes. *)
Definition fetch_result (output_path : string) (events : list StreamEvent)
    : Outcome (option string) :=
  match stream_error events with
  | None => Return (Some output_path)
  | Some e => if isinstance_Exception e then Return None else Raise e
  end.

Definition size_warning (url : string) (n : Z) : list string :=
  if n =? 0
  then ["Warning: Content-length header is missing or zero in the response from "
        +:+ url +:+ "."]
  else [].

(** The directory [decompress_to_cache] extracts into: the one supplied, or
    the one [mkdtemp] allocates in the file system [f]. *)
Definition cache_directory {Tensor} (E : Env Tensor) (cache_dir : option string)
    (f : gmap string Node) : option string :=
  match cache_dir with
  | Some d => Some d
  | None => mkdtemp_pick E (candidate_names E) f
  end.

(** What a call of the fetcher can have made of the file system [f]:
    nothing, or a file written at [output_path]. *)
Definition wrote_at_most (output_path : string) (f f' : gmap string Node) : Prop :=
  f' = f \/ exists content, f' = <[output_path := File content]> f.

(** The file system once the cache directory is allocated, when the call
    allocates it, and the members of the archive are extracted. *)
Definition extracted (cache_dir : option string) (d : string)
    (members : list (string * Node)) (f : gmap string Node) : gmap string Node :=
  foldl (extract_member d)
        (match cache_dir with None => <[d := Dir]> f | Some _ => f end) members.

(** ** Concrete environments and worlds *)

Module Examples.

(** Tensors play no part in the examples. *)
#[global] Instance pool_unit : TorchPool unit :=
  mkTorchPool unit id id id (fun _ _ _ => tt) id (fun _ _ => tt).
#[global] Instance score_unit : TorchScore unit :=
  mkTorchScore unit id id id id (fun _ _ => tt) (fun _ _ => tt).

(** An environment with one answer to every GET, one reading of every
    archive, and every module importable or none. *)
Definition env (resp : Response) (tar : TarResult) (modules : bool) : Env unit :=
  mkEnv unit
    (fun _ => inr resp)
    (fun _ => None)
    "/tmp" ["k3x9vq_a"]
    (fun _ => tar)
    (fun _ => modules)
    (fun _ _ => None)
    (fun _ _ => inr tt)
    (fun _ _ => inr (mkBatchDict tt tt))
    (fun _ _ => inr tt).

Definition corrupt : TarResult :=
  mkTarResult [] (Some (Exc ReadError "not a gzip file" None)).

Definition forbidden : Response := mkResponse 403 CLMissing [].
Definition unavailable : Response := mkResponse 503 CLMissing [].

(** A body announced as 2048 bytes whose connection breaks after two
    bytes. *)
Definition broken : Response :=
  mkResponse 200 (CLInt 2048)
    [Chunk [Byte.x1f; Byte.x8b];
     StreamRaise (Exc ChunkedEncodingError "Connection broken" None)].

Definition url : string :=
  "https://storage.googleapis.com/qdrant-fastembed/fast-all-MiniLM-L6-v2.tar.gz".
Definition archive : string := "fast-all-MiniLM-L6-v2.tar.gz".


(** An archive with one member. *)
Definition one_member : TarResult := mkTarResult [("config.json", File [])] None.


(** An environment without network. *)
Definition offline : Env unit :=
  mkEnv unit
    (fun _ => inl (Exc ConnectionError "Max retries exceeded" None))
    (fun _ => None)
    "/tmp" ["k3x9vq_a"]
    (fun _ => corrupt)
    (fun _ => false)
    (fun _ _ => None)
    (fun _ _ => inr tt)
    (fun _ _ => inr (mkBatchDict tt tt))
    (fun _ _ => inr tt).

(** An environment whose archives have one member and where [mkdtemp] has
    two names to try. *)
Definition two_names : Env unit :=
  mkEnv unit
    (fun _ => inr forbidden)
    (fun _ => None)
    "/tmp" ["k3x9vq_a"; "p0w2ml_z"]
    (fun _ => one_member)
    (fun _ => false)
    (fun _ _ => None)
    (fun _ _ => inr tt)
    (fun _ _ => inr (mkBatchDict tt tt))
    (fun _ _ => inr tt).

Definition empty_world : World := mkWorld ∅ [] [] [] [].

(** The archive has been downloaded. *)
Definition cached_world : World :=
  mkWorld {[archive := File [Byte.x1f; Byte.x8b]]} [] [] [] [].

(** The archive has been downloaded and the caller keeps models under
    [/data/tmp_models]. *)
Definition models_world : World :=
  mkWorld (<["/data/tmp_models" := Dir]>
             (<["/data/tmp_models/keep.bin" := File [Byte.x00]]>
                {[archive := File [Byte.x1f; Byte.x8b]]}))
          [] [] [] [].

End Examples.

(** ** Properties *)

Import DefaultEmbedding.

(** *** Strings *)

Lemma append_nil (s : string) : "" +:+ s = s.
Proof. reflexivity. Qed.

Lemma append_cons (c : Ascii.ascii) (a b : string) :
  String c a +:+ b = String c (a +:+ b).
Proof. reflexivity. Qed.

Lemma prefix_nil (s : string) : String.prefix "" s = true.
Proof. destruct s; reflexivity. Qed.

Lemma prefix_cons (a b : Ascii.ascii) (p s : string) :
  String.prefix (String a p) (String b s) =
  if Ascii.ascii_dec a b then String.prefix p s else false.
Proof. reflexivity. Qed.

Lemma prefix_append (p s : string) : String.prefix p (p +:+ s) = true.
Proof.
  induction p as [|a p IH].
  - apply prefix_nil.
  - rewrite append_cons, prefix_cons.
    destruct (Ascii.ascii_dec a a); [exact IH | congruence].
Qed.

Lemma prefix_split (p s : string) :
  String.prefix p s = true -> exists t, s = p +:+ t.
Proof.
  revert s. induction p as [|a p IH]; intros s H.
  - exists s. reflexivity.
  - destruct s as [|b s]; [discriminate|].
    rewrite prefix_cons in H.
    destruct (Ascii.ascii_dec a b) as [->|]; [|discriminate].
    destruct (IH s H) as [t ->]. exists t. reflexivity.
Qed.

Lemma append_assoc (a b c : string) : (a +:+ b) +:+ c = a +:+ (b +:+ c).
Proof.
  induction a as [|x a IH]; [reflexivity|].
  rewrite !append_cons. by rewrite IH.
Qed.

Lemma str_contains_unfold (needle hay : string) :
  str_contains needle hay =
  String.prefix needle hay ||
  match hay with
  | EmptyString => false
  | String _ rest => str_contains needle rest
  end.
Proof. destruct hay; reflexivity. Qed.

Lemma str_endswith_unfold (suffix s : string) :
  str_endswith suffix s =
  String.eqb suffix s ||
  match s with
  | EmptyString => false
  | String _ rest => str_endswith suffix rest
  end.
Proof. destruct s; reflexivity. Qed.

(** [str_contains] decides the occurrence of a substring. *)
Lemma str_contains_spec (needle hay : string) :
  str_contains needle hay = true <-> exists a b, hay = a +:+ needle +:+ b.
Proof.
  split.
  - induction hay as [|c hay IH]; rewrite str_contains_unfold; intros H;
      apply orb_true_iff in H as [H|H].
    + apply prefix_split in H as [t Ht]. by exists "", t.
    + discriminate.
    + apply prefix_split in H as [t Ht]. by exists "", t.
    + destruct (IH H) as (a & b & ->). by exists (String c a), b.
  - intros (a & b & ->). induction a as [|c a IH]; rewrite str_contains_unfold.
    + rewrite append_nil, prefix_append. reflexivity.
    + rewrite append_cons, IH. apply orb_true_r.
Qed.

(** [str_endswith] decides whether a string ends with a suffix. *)
Lemma str_endswith_spec (suffix s : string) :
  str_endswith suffix s = true <-> exists p, s = p +:+ suffix.
Proof.
  split.
  - induction s as [|c s IH]; rewrite str_endswith_unfold; intros H;
      apply orb_true_iff in H as [H|H].
    + apply String.eqb_eq in H as ->. by exists "".
    + discriminate.
    + apply String.eqb_eq in H as ->. by exists "".
    + destruct (IH H) as [p ->]. by exists (String c p).
  - intros [p ->]. induction p as [|c p IH]; rewrite str_endswith_unfold.
    + rewrite append_nil, String.eqb_refl. reflexivity.
    + rewrite append_cons, IH. apply orb_true_r.
Qed.

Lemma append_length (a b : string) :
  String.length (a +:+ b) = (String.length a + String.length b)%nat.
Proof.
  induction a as [|x a IH]; [reflexivity|].
  rewrite append_cons. simpl. by rewrite IH.
Qed.

(** A path below a directory is not the directory. *)
Lemma below_ne (dir rel : string) : dir +:+ "/" +:+ rel <> dir.
Proof.
  intros H. apply (f_equal String.length) in H.
  rewrite !append_length in H. simpl in H. lia.
Qed.

Lemma under_refl (dir : string) : under dir dir = true.
Proof. unfold under. by rewrite String.eqb_refl. Qed.

Lemma under_below (dir rel : string) : under dir (dir +:+ "/" +:+ rel) = true.
Proof.
  unfold under. rewrite <- append_assoc, prefix_append. apply orb_true_r.
Qed.

(** *** Calls *)

Section Calls.
Context {Tensor : Type}.
Implicit Types (params : list string) (pos : list (Value Tensor)) (kw : Bindings Tensor).

(** A parameter that received a positional argument is bound. *)
Lemma bind_positional_bound params pos (k : string) (i : nat) :
  params !! i = Some k ->
  (i < length pos)%nat ->
  bound Tensor k (bind_positional Tensor params pos) = true.
Proof.
  revert pos i. induction params as [|p params IH]; intros pos i Hk Hi.
  - by destruct i.
  - destruct pos as [|v pos]; [simpl in Hi; lia|].
    unfold bound. simpl. destruct (String.eqb k p) eqn:Hkp; [reflexivity|].
    destruct i as [|i].
    + simpl in Hk. injection Hk as ->. by rewrite String.eqb_refl in Hkp.
    + apply (IH pos i); [exact Hk | simpl in Hi; lia].
Qed.

Lemma mem_name_lookup params (k : string) (i : nat) :
  params !! i = Some k -> mem_name k params = true.
Proof.
  intros Hk. unfold mem_name. apply existsb_exists. exists k. split.
  - apply list_elem_of_In. eapply list_elem_of_lookup_2. exact Hk.
  - apply String.eqb_refl.
Qed.

(** A keyword that names a parameter already filled by position is an
    error. *)
Lemma bind_args_multiple_values (fname : string) params (defaults : Bindings Tensor)
    pos kw (k : string) (v : Value Tensor) (i : nat) :
  params !! i = Some k ->
  (i < length pos)%nat ->
  bind_args fname params defaults pos ((k, v) :: kw)
  = inl (Exc TypeError
           (fname +:+ "() got multiple values for argument '" +:+ k +:+ "'") None).
Proof.
  intros Hk Hi. unfold bind_args. simpl.
  rewrite (mem_name_lookup params k i Hk). simpl.
  by rewrite (bind_positional_bound params pos k i Hk Hi).
Qed.

(** More positional arguments than parameters is an error. *)
Lemma bind_args_too_many (fname : string) params (defaults : Bindings Tensor) pos :
  (length params < length pos)%nat ->
  bind_args fname params defaults pos []
  = inl (Exc TypeError
           (fname +:+ "() takes " +:+ pretty (length params) +:+
            " positional arguments but " +:+ pretty (length pos) +:+ " were given")
           None).
Proof.
  intros Hlen. unfold bind_args. simpl.
  apply Nat.ltb_lt in Hlen. by rewrite Hlen.
Qed.

(** Through a receiver, the arguments shift by one: a keyword for the
    parameter at a position the shifted arguments reach collides, and as
    many positional arguments as parameters are one too many. *)
Lemma call_bound_multiple_values (receiver : Value Tensor) (f : PyFunction Tensor)
    pos kw (k : string) (v : Value Tensor) (i : nat) (w : World) :
  fn_params f !! i = Some k ->
  (i <= length pos)%nat ->
  call_bound receiver f pos ((k, v) :: kw) w
  = (Raise (Exc TypeError
              (fn_name f +:+ "() got multiple values for argument '" +:+ k +:+ "'") None),
     w).
Proof.
  intros Hk Hi. unfold call_bound, call.
  rewrite (bind_args_multiple_values _ _ _ _ _ k v i Hk); [reflexivity|].
  simpl. lia.
Qed.

Lemma call_bound_too_many (receiver : Value Tensor) (f : PyFunction Tensor) pos (w : World) :
  (length (fn_params f) <= length pos)%nat ->
  call_bound receiver f pos [] w
  = (Raise (Exc TypeError
              (fn_name f +:+ "() takes " +:+ pretty (length (fn_params f)) +:+
               " positional arguments but " +:+ pretty (S (length pos)) +:+ " were given")
              None), w).
Proof.
  intros Hlen. unfold call_bound, call.
  rewrite bind_args_too_many; [reflexivity|]. simpl. lia.
Qed.
End Calls.

(** *** The artifact fetcher *)

(** C1. When something already exists at the destination path,
    [download_file_from_gcs] returns that path and leaves the world as it
    was: no HTTP request is issued and nothing is written.  Hence two calls in
    a row both return the path, and still no request has been issued. *)
Theorem download_existing_destination_is_skipped {Tensor} (E : Env Tensor)
    (url output_path : string) (show_progress : bool) (w : World) :
  is_Some (fs w !! output_path) ->
  download_file_from_gcs E url output_path show_progress w
    = (Return (Some output_path), w)
  /\ (let* first := download_file_from_gcs E url output_path show_progress in
      let* second := download_file_from_gcs E url output_path show_progress in
      ret (first, second)) w
    = (Return (Some output_path, Some output_path), w).
Proof.
  intros [node Hnode].
  assert (Hone : download_file_from_gcs E url output_path show_progress w
                 = (Return (Some output_path), w)).
  { unfold download_file_from_gcs, bind, os_path_exists. by rewrite Hnode. }
  split; [exact Hone|].
  unfold bind at 1. rewrite Hone.
  unfold bind at 1. rewrite Hone. reflexivity.
Qed.

Lemma download_existing_destination_is_skipped_witness :
  is_Some (fs Examples.cached_world !! Examples.archive)
  /\ download_file_from_gcs (Examples.env Examples.forbidden Examples.corrupt false)
       Examples.url Examples.archive true Examples.cached_world
     = (Return (Some Examples.archive), Examples.cached_world).
Proof.
  split.
  - vm_compute. eexists. reflexivity.
  - apply (download_existing_destination_is_skipped
             (Examples.env Examples.forbidden Examples.corrupt false)
             Examples.url Examples.archive true Examples.cached_world).
    vm_compute. eexists. reflexivity.
Defined.

(** C5. When nothing exists at the destination and the GET is answered with a
    status other than 200, [download_file_from_gcs] returns [None] without
    raising; it prints the authentication message for status 403 and the
    generic HTTP message for any other status; the file system is as it
    was, so no file is written at the destination. *)
Theorem download_http_error_returns_nothing {Tensor} (E : Env Tensor)
    (url output_path : string) (show_progress : bool) (w : World) (r : Response) :
  fs w !! output_path = None ->
  requests_response E url = inr r ->
  status_code r <> 200 ->
  exists w',
    download_file_from_gcs E url output_path show_progress w = (Return None, w')
    /\ fs w' = fs w
    /\ fs w' !! output_path = None
    /\ stdout w' =
       (stdout w ++
        [if status_code r =? 403
         then "Authentication error: you do not have permission to access this resource."
         else "HTTP error " +:+ pretty (status_code r) +:+
              " while trying to download the file."])%list.
Proof.
  intros Hfresh Hresp Hstatus.
  unfold download_file_from_gcs, bind, os_path_exists, requests_get.
  rewrite Hfresh, Hresp.
  destruct (status_code r =? 403) eqn:H403.
  - eexists. split; [reflexivity|]. simpl. auto.
  - assert (H200 : (status_code r =? 200) = false) by (apply Z.eqb_neq; exact Hstatus).
    rewrite H200. simpl.
    eexists. split; [reflexivity|]. simpl. auto.
Qed.

Lemma download_http_error_returns_nothing_witness :
  fs Examples.empty_world !! Examples.archive = None
  /\ status_code Examples.forbidden <> 200
  /\ exists w',
       download_file_from_gcs (Examples.env Examples.forbidden Examples.corrupt false)
         Examples.url Examples.archive true Examples.empty_world = (Return None, w')
       /\ fs w' = fs Examples.empty_world
       /\ fs w' !! Examples.archive = None
       /\ stdout w' =
          ["Authentication error: you do not have permission to access this resource."].
Proof.
  split; [reflexivity|]. split; [discriminate|].
  apply (download_http_error_returns_nothing
           (Examples.env Examples.forbidden Examples.corrupt false)
           Examples.url Examples.archive true Examples.empty_world Examples.forbidden).
  - reflexivity.
  - reflexivity.
  - discriminate.
Defined.

(** The same at status 503: the generic message. *)
Example download_503 :
  exists w',
    download_file_from_gcs (Examples.env Examples.unavailable Examples.corrupt false)
      Examples.url Examples.archive true Examples.empty_world = (Return None, w')
    /\ fs w' = ∅
    /\ stdout w' = ["HTTP error 503 while trying to download the file."].
Proof. eexists. split; [vm_compute; reflexivity|]. split; reflexivity. Qed.

(** *** The archive cache: validation *)

(** C4. When the archive path does not exist, names a directory, or does not
    end with [.tar.gz], [decompress_to_cache] raises [ValueError] and leaves
    the world as it was: no directory is created, nothing is written or
    deleted. *)
Theorem decompress_rejects_invalid_archive {Tensor} (E : Env Tensor)
    (targz_path : string) (cache_dir : option string) (w : World) :
  fs w !! targz_path = None \/
  fs w !! targz_path = Some Dir \/
  str_endswith ".tar.gz" targz_path = false ->
  exists msg,
    decompress_to_cache E targz_path cache_dir w = (Raise (Exc ValueError msg None), w).
Proof.
  intros H.
  unfold decompress_to_cache, bind, os_path_isfile.
  destruct (fs w !! targz_path) as [[content|]|] eqn:Hnode.
  - destruct H as [H|[H|H]]; try discriminate.
    rewrite H. simpl. eexists. reflexivity.
  - simpl. eexists. reflexivity.
  - simpl. eexists. reflexivity.
Qed.

Lemma decompress_rejects_invalid_archive_witness :
  (fs Examples.models_world !! "model.zip" = None \/
   fs Examples.models_world !! "model.zip" = Some Dir \/
   str_endswith ".tar.gz" "model.zip" = false)
  /\ exists msg,
       decompress_to_cache (Examples.env Examples.forbidden Examples.corrupt false)
         "model.zip" None Examples.models_world
       = (Raise (Exc ValueError msg None), Examples.models_world).
Proof.
  split.
  - left. reflexivity.
  - apply (decompress_rejects_invalid_archive
             (Examples.env Examples.forbidden Examples.corrupt false)
             "model.zip" None Examples.models_world).
    left. reflexivity.
Defined.

(** A directory and a file with another extension are rejected alike. *)
Example decompress_directory :
  decompress_to_cache (Examples.env Examples.forbidden Examples.corrupt false)
    "/data/tmp_models" None Examples.models_world
  = (Raise (Exc ValueError "/data/tmp_models does not exist or is not a file." None),
     Examples.models_world).
Proof. vm_compute. reflexivity. Qed.

Example decompress_wrong_extension :
  decompress_to_cache (Examples.env Examples.forbidden Examples.corrupt false)
    "fast-all-MiniLM-L6-v2.tar" None
    (set_fs (<["fast-all-MiniLM-L6-v2.tar" := File []]> ∅) Examples.empty_world)
  = (Raise (Exc ValueError "fast-all-MiniLM-L6-v2.tar is not a .tar.gz file." None),
     set_fs (<["fast-all-MiniLM-L6-v2.tar" := File []]> ∅) Examples.empty_world).
Proof. vm_compute. reflexivity. Qed.

(** *** The artifact fetcher: streaming *)

Section Streaming.
Context {Tensor : Type} (E : Env Tensor).
Variables (output_path : string) (base : list Bar) (progress_bar : option nat).

Lemma bar_alter_last (f : Bar -> Bar) (x : Bar) :
  alter f (length base) (base ++ [x]) = base ++ [f x].
Proof.
  replace (length base) with (length base + 0)%nat by lia.
  by rewrite alter_app_r.
Qed.

(** The loop keeps the bars in shape and prints nothing. *)
Lemma write_chunks_frame (events : list StreamEvent) (w0 w1 : World)
    (res : Outcome unit) :
  write_chunks output_path progress_bar events w0 = (res, w1) ->
  bars_during base progress_bar (bars w0) ->
  bars_during base progress_bar (bars w1) /\ stdout w1 = stdout w0.
Proof.
  revert w0. induction events as [|ev events IH]; intros w0 Hrun Hbars.
  - inversion Hrun; subst. auto.
  - destruct ev as [chunk|e]; simpl in Hrun.
    + unfold bind at 1 in Hrun. destruct chunk as [|c chunk].
      * simpl in Hrun. eauto.
      * unfold bind at 1 in Hrun.
        destruct progress_bar as [b|] eqn:Hpb.
        -- destruct Hbars as [-> [x Hx]].
           unfold bar_update at 1, file_write at 1 in Hrun. simpl in Hrun.
           destruct (fs w0 !! output_path) as [[old|]|];
             try (inversion Hrun; subst; simpl; rewrite Hx, bar_alter_last;
                  split; [split; eauto | reflexivity]).
           apply IH in Hrun; [exact Hrun|].
           simpl. rewrite Hx, bar_alter_last. split; eauto.
        -- unfold file_write at 1 in Hrun. simpl in Hrun.
           destruct (fs w0 !! output_path) as [[old|]|];
             try (inversion Hrun; subst; simpl; auto).
           apply IH in Hrun; [exact Hrun|]. exact Hbars.
    + inversion Hrun; subst. auto.
Qed.

(** Into an open file, a stream that raises [e] after some chunks makes
    the loop raise [e]. *)
Lemma write_chunks_raises (chunks : list (list Byte.byte)) (e : PyExc)
    (rest : list StreamEvent) (w0 : World) (old : list Byte.byte) :
  fs w0 !! output_path = Some (File old) ->
  exists w1,
    write_chunks output_path progress_bar
      (map Chunk chunks ++ StreamRaise e :: rest) w0 = (Raise e, w1).
Proof.
  revert w0 old. induction chunks as [|chunk chunks IH]; intros w0 old Hopen.
  - eexists. reflexivity.
  - simpl. unfold bind at 1. destruct chunk as [|c chunk].
    + simpl. eapply IH. exact Hopen.
    + unfold bind at 1. destruct progress_bar as [b|].
      * unfold bar_update at 1, file_write at 1. simpl. rewrite Hopen.
        eapply IH. simpl. apply lookup_insert_eq.
      * unfold file_write at 1. simpl. rewrite Hopen.
        eapply IH. simpl. apply lookup_insert_eq.
  Qed.

(** However the [try] statement ends, a bar of the download is closed. *)
Lemma download_try_bars (r : Response) (w0 w1 : World)
    (res : Outcome (Flow (option string))) :
  download_try E output_path progress_bar r w0 = (res, w1) ->
  bars_during base progress_bar (bars w0) ->
  match progress_bar with
  | Some _ => exists x, bars w1 = base ++ [x] /\ bar_closed x = true
  | None => bars w1 = base
  end.
Proof.
  intros Hrun Hbars.
  assert (Hbody : forall resb wb,
    try_except
      (let* _ := open_wb E output_path in
       let* _ := write_chunks output_path progress_bar (iter_content r) in
       ret Fallthrough)
      (fun e =>
         if isinstance_Exception e then
           Some (let* _ := print ("An error occurred while trying to download the file: "
                                  +:+ exc_str e) in
                 ret (Returned (@None string)))
         else None) w0 = (resb, wb) ->
    bars_during base progress_bar (bars wb)).
  { intros resb wb Hb. unfold try_except, bind at 1, open_wb in Hb.
    destruct (open_error E output_path) as [e|].
    - destruct (isinstance_Exception e); inversion Hb; subst; exact Hbars.
    - unfold bind at 1 in Hb.
      destruct (write_chunks output_path progress_bar (iter_content r)
                  (set_fs (<[output_path:=File []]> (fs w0)) w0)) as [resw ww] eqn:Hw.
      apply write_chunks_frame in Hw as [Hw _]; [|exact Hbars].
      destruct resw as [[]|e].
      + inversion Hb; subst. exact Hw.
      + destruct (isinstance_Exception e); inversion Hb; subst; exact Hw. }
  unfold download_try, try_finally in Hrun.
  match type of Hrun with
  | (match ?body with _ => _ end) = _ => destruct body as [resb wb] eqn:Hb
  end.
  clear Hb. pose proof (Hbody resb wb eq_refl) as Hb.
  destruct progress_bar as [b|].
  - destruct Hb as [-> [x Hx]]. unfold bar_close in Hrun.
    inversion Hrun; subst. simpl. rewrite Hx, bar_alter_last. eauto.
  - inversion Hrun; subst. exact Hb.
Qed.

(** An exception of class [Exception] raised by the streaming is reported
    and turned into [return None]. *)
Lemma download_try_swallows (r : Response) (e : PyExc) (w0 : World) :
  streaming_raises E output_path r e ->
  isinstance_Exception e = true ->
  exists w1,
    download_try E output_path progress_bar r w0 = (Return (Returned None), w1)
    /\ last (stdout w1)
       = Some ("An error occurred while trying to download the file: " +:+ exc_str e).
Proof.
  intros Hraises Hcls.
  unfold download_try, try_finally, try_except, bind at 1, open_wb.
  destruct Hraises as [Hopen | [Hopen (chunks & rest & Hevents)]]; rewrite Hopen.
  - rewrite Hcls. unfold bind, print. simpl.
    destruct progress_bar; simpl; eexists; (split; [reflexivity|]);
      simpl; apply last_snoc.
  - unfold bind at 1. rewrite Hevents.
    destruct (write_chunks_raises chunks e rest
                (set_fs (<[output_path:=File []]> (fs w0)) w0) [])
      as [w1 Hw1]; [simpl; apply lookup_insert_eq|].
    rewrite Hw1, Hcls. unfold bind, print. simpl.
    destruct progress_bar; simpl; eexists; (split; [reflexivity|]);
      simpl; apply last_snoc.
Qed.
(** An exception outside class [Exception] raised by the streaming leaves
    the [try] statement as it came. *)
Lemma download_try_propagates (r : Response) (e : PyExc) (w0 : World) :
  streaming_raises E output_path r e ->
  isinstance_Exception e = false ->
  exists w1, download_try E output_path progress_bar r w0 = (Raise e, w1).
Proof.
  intros Hraises Hcls.
  unfold download_try, try_finally, try_except, bind at 1, open_wb.
  destruct Hraises as [Hopen | [Hopen (chunks & rest & Hevents)]]; rewrite Hopen.
  - rewrite Hcls. destruct progress_bar; simpl; eexists; reflexivity.
  - unfold bind at 1. rewrite Hevents.
    destruct (write_chunks_raises chunks e rest
                (set_fs (<[output_path:=File []]> (fs w0)) w0) [])
      as [w1 Hw1]; [simpl; apply lookup_insert_eq|].
    rewrite Hw1, Hcls. destruct progress_bar; simpl; eexists; reflexivity.
Qed.
End Streaming.

(** C6. Take a download that reaches the streaming: nothing exists at the
    destination, the answer has status 200 and a readable size [n].  Then
    (a) if the streaming raises an exception of class [Exception], the call
    does not raise: it returns [None] and the last line printed reports the
    error; (b) if the streaming raises an exception outside class
    [Exception], the call raises it; (c) however the call ends, by a result
    or by an exception, the progress bar it created (when [n] is not zero and
    progress is shown) is closed, and no other bar is created or touched. *)
Theorem download_streaming_failure_reported_bar_closed {Tensor} (E : Env Tensor)
    (url output_path : string) (show_progress : bool) (w : World)
    (r : Response) (n : Z) :
  fs w !! output_path = None ->
  requests_response E url = inr r ->
  status_code r = 200 ->
  announced_size r = Some n ->
  exists res w',
    download_file_from_gcs E url output_path show_progress w = (res, w')
    /\ (forall e,
          streaming_raises E output_path r e ->
          isinstance_Exception e = true ->
          res = Return None
          /\ last (stdout w')
             = Some ("An error occurred while trying to download the file: " +:+ exc_str e))
    /\ (forall e,
          streaming_raises E output_path r e ->
          isinstance_Exception e = false ->
          res = Raise e)
    /\ (if negb (n =? 0) && show_progress
        then exists bar, bars w' = bars w ++ [bar] /\ bar_closed bar = true
        else bars w' = bars w).
Proof.
  intros Hfresh Hresp Hstatus Hsize.
  unfold download_file_from_gcs.
  unfold bind at 1, os_path_exists. rewrite Hfresh.
  unfold bind at 1, requests_get. rewrite Hresp, Hstatus. simpl.
  assert (Hint : int_content_length r = ret n).
  { unfold announced_size in Hsize. unfold int_content_length.
    destruct (content_length r); inversion Hsize; reflexivity. }
  rewrite Hint. unfold bind at 1, ret at 1.
  set (w1 := set_requests_log (requests_log w ++ [url]) w).
  set (warn := if n =? 0 then _ else _).
  assert (Hwarn : exists w2, warn w1 = (Return tt, w2) /\ bars w2 = bars w).
  { subst warn. destruct (n =? 0); eexists; split; reflexivity. }
  destruct Hwarn as (w2 & Hwarn & Hbars2).
  unfold bind at 1. rewrite Hwarn.
  destruct (negb (n =? 0) && show_progress) eqn:Hshow.
  - unfold bind at 1. unfold bind at 1, tqdm, ret at 1.
    set (w3 := set_bars _ w2).
    destruct (download_try E output_path (Some (length (bars w2))) r w3)
      as [resf wf] eqn:Hf.
    pose proof (download_try_bars E output_path (bars w) (Some (length (bars w2)))
                  r w3 wf resf Hf) as Hclosed.
    simpl in Hclosed. rewrite Hbars2 in Hclosed.
    specialize (Hclosed (conj eq_refl (ex_intro _ _ eq_refl))).
    unfold bind. rewrite Hf.
    destruct resf as [[|ret_value]|exc]; eexists _, _; (split; [reflexivity|]);
      (split; [|split; [|exact Hclosed]]); intros e Hraises Hcls.
    all: try (destruct (download_try_swallows E output_path (Some (length (bars w2)))
                          r e w3 Hraises Hcls) as (wf' & Hf' & Hlast);
              rewrite Hf in Hf'; inversion Hf'; subst; by auto).
    all: destruct (download_try_propagates E output_path (Some (length (bars w2)))
                     r e w3 Hraises Hcls) as (wf' & Hf');
      rewrite Hf in Hf'; inversion Hf'; subst; reflexivity.
  - unfold bind at 1, ret at 1.
    destruct (download_try E output_path None r w2) as [resf wf] eqn:Hf.
    pose proof (download_try_bars E output_path (bars w) None r w2 wf resf Hf) as Hclosed.
    simpl in Hclosed. specialize (Hclosed Hbars2).
    unfold bind. rewrite Hf.
    destruct resf as [[|ret_value]|exc]; eexists _, _; (split; [reflexivity|]);
      (split; [|split; [|exact Hclosed]]); intros e Hraises Hcls.
    all: try (destruct (download_try_swallows E output_path None r e w2 Hraises Hcls)
                as (wf' & Hf' & Hlast);
              rewrite Hf in Hf'; inversion Hf'; subst; by auto).
    all: destruct (download_try_propagates E output_path None r e w2 Hraises Hcls)
           as (wf' & Hf');
      rewrite Hf in Hf'; inversion Hf'; subst; reflexivity.
Qed.

Lemma download_streaming_failure_reported_bar_closed_witness :
  let E := Examples.env Examples.broken Examples.corrupt false in
  let e := Exc ChunkedEncodingError "Connection broken" None in
  fs Examples.empty_world !! Examples.archive = None
  /\ status_code Examples.broken = 200
  /\ announced_size Examples.broken = Some 2048
  /\ streaming_raises E Examples.archive Examples.broken e
  /\ isinstance_Exception e = true
  /\ exists res w',
       download_file_from_gcs E Examples.url Examples.archive true Examples.empty_world
         = (res, w')
       /\ res = Return None
       /\ last (stdout w')
          = Some "An error occurred while trying to download the file: Connection broken"
       /\ exists bar, bars w' = [bar] /\ bar_closed bar = true.
Proof.
  intros E e.
  assert (Hraises : streaming_raises E Examples.archive Examples.broken e).
  { right. split; [reflexivity|].
    exists [[Byte.x1f; Byte.x8b]], []. reflexivity. }
  split; [reflexivity|]. split; [reflexivity|]. split; [reflexivity|].
  split; [exact Hraises|]. split; [reflexivity|].
  destruct (download_streaming_failure_reported_bar_closed E
              Examples.url Examples.archive true Examples.empty_world
              Examples.broken 2048 eq_refl eq_refl eq_refl eq_refl)
    as (res & w' & Hrun & Hswallow & _ & Hbar).
  destruct (Hswallow e Hraises eq_refl) as [Hres Hlast].
  exists res, w'. split; [exact Hrun|]. split; [exact Hres|].
  split; [exact Hlast|]. exact Hbar.
Defined.

(** The same run, computed: the two bytes received stay in a
    truncated file, the bar has advanced by two and is closed. *)
Example download_broken_stream :
  download_file_from_gcs (Examples.env Examples.broken Examples.corrupt false)
    Examples.url Examples.archive true Examples.empty_world
  = (Return None,
     mkWorld {[Examples.archive := File [Byte.x1f; Byte.x8b]]}
             [Examples.url]
             ["An error occurred while trying to download the file: Connection broken"]
             [mkBar 2048 2 true]
             []).
Proof. vm_compute. reflexivity. Qed.

(** A complete download returns the path. *)
Example download_complete :
  download_file_from_gcs
    (Examples.env (mkResponse 200 (CLInt 2) [Chunk [Byte.x1f]; Chunk []; Chunk [Byte.x8b]])
       Examples.corrupt false)
    Examples.url Examples.archive true Examples.empty_world
  = (Return (Some Examples.archive),
     mkWorld {[Examples.archive := File [Byte.x1f; Byte.x8b]]}
             [Examples.url] [] [mkBar 2 2 true] []).
Proof. vm_compute. reflexivity. Qed.

(** C6 as worded, for any exception, fails: [KeyboardInterrupt], raised while
    the body is streamed, is no [Exception]; it is not reported and the call
    raises it, after closing the bar. *)
Lemma download_keyboard_interrupt_propagates :
  let r := mkResponse 200 (CLInt 2048)
             [Chunk [Byte.x1f]; StreamRaise (Exc KeyboardInterrupt "" None)] in
  let E := Examples.env r Examples.corrupt false in
  streaming_raises E Examples.archive r (Exc KeyboardInterrupt "" None)
  /\ download_file_from_gcs E Examples.url Examples.archive true Examples.empty_world
     = (Raise (Exc KeyboardInterrupt "" None),
        mkWorld {[Examples.archive := File [Byte.x1f]]} [Examples.url] []
                [mkBar 2048 1 true] [])
  /\ fst (download_file_from_gcs E Examples.url Examples.archive true Examples.empty_world)
     <> Return None.
Proof.
  intros r E. split; [|split].
  - right. split; [reflexivity|]. exists [[Byte.x1f]], []. reflexivity.
  - vm_compute. reflexivity.
  - vm_compute. discriminate.
Qed.

(** *** The archive cache: cleanup after a failed extraction *)

Section Cleanup.
Context {Tensor : Type} (E : Env Tensor).

(** Extraction into a directory leaves it a directory. *)
Lemma extract_keeps_destination (dest : string) (ms : list (string * Node))
    (f : gmap string Node) :
  f !! dest = Some Dir ->
  foldl (extract_member dest) f ms !! dest = Some Dir.
Proof.
  revert f. induction ms as [|m ms IH]; intros f Hdir; simpl; [exact Hdir|].
  apply IH. unfold extract_member.
  rewrite lookup_insert_ne by apply below_ne.
  apply lookup_insert_eq.
Qed.

(** [shutil.rmtree] removes the directory and all that lies below it. *)
Lemma rmtree_removes (dir : string) (w : World) :
  fs w !! dir = Some Dir ->
  exists w',
    shutil_rmtree dir w = (Return tt, w')
    /\ stdout w' = stdout w
    /\ forall path, under dir path = true -> fs w' !! path = None.
Proof.
  intros Hdir. unfold shutil_rmtree. rewrite Hdir.
  eexists. split; [reflexivity|]. split; [reflexivity|].
  intros path Hunder. simpl.
  apply map_lookup_filter_None. right. intros x _. simpl. congruence.
Qed.

(** The name [mkdtemp] picks does not exist yet, and contains [tmp]. *)
Lemma mkdtemp_pick_fresh (names : list string) (f : gmap string Node) (p : string) :
  mkdtemp_pick E names f = Some p ->
  f !! p = None /\ str_contains "tmp" p = true.
Proof.
  induction names as [|n names IH]; simpl; [discriminate|].
  destruct (f !! mkdtemp_path E n) eqn:Hn; [exact IH|].
  intros [= <-]. split; [exact Hn|].
  apply str_contains_spec. exists (gettempdir E +:+ "/"), n.
  unfold mkdtemp_path. by rewrite append_assoc.
Qed.

Variables (targz_path : string) (content : list Byte.byte) (e : PyExc) (w : World).
Hypothesis Harchive : fs w !! targz_path = Some (File content).
Hypothesis Hname : str_endswith ".tar.gz" targz_path = true.
Hypothesis Herror : tar_error (tar_read E content) = Some e.
Hypothesis Htar : isinstance_TarError e = true.

(** A failed extraction into a directory allocated by the call: the
    directory is removed with all its contents, then [ValueError] is raised
    with the archive error as its context. *)
Lemma decompress_failure_removes_temporary (p : string) :
  mkdtemp_pick E (candidate_names E) (fs w) = Some p ->
  exists msg w',
    decompress_to_cache E targz_path None w
      = (Raise (Exc ValueError msg (Some e)), w')
    /\ forall path, under p path = true -> fs w' !! path = None.
Proof.
  intros Hpick. destruct (mkdtemp_pick_fresh _ _ _ Hpick) as [Hfresh Htmp].
  assert (Hne : p <> targz_path) by (intros ->; congruence).
  unfold decompress_to_cache.
  unfold bind at 1, os_path_isfile. rewrite Harchive. simpl. rewrite Hname. simpl.
  unfold bind at 1, tempfile_mkdtemp. rewrite Hpick.
  unfold bind at 1, try_except, bind at 1, tarfile_extractall. simpl.
  rewrite lookup_insert_ne by exact Hne. rewrite Harchive, Herror, Htar, Htmp.
  unfold bind at 1.
  edestruct (rmtree_removes p) as (w' & Hrm & _ & Hgone); [|rewrite Hrm].
  { simpl. apply extract_keeps_destination, lookup_insert_eq. }
  simpl. eexists _, _. split; [reflexivity|]. exact Hgone.
Qed.

(** A failed extraction into a directory of the caller whose path does not
    contain [tmp]: the directory stays. *)
Lemma decompress_failure_keeps_caller_directory (cache_dir : string) :
  fs w !! cache_dir = Some Dir ->
  str_contains "tmp" cache_dir = false ->
  exists msg w',
    decompress_to_cache E targz_path (Some cache_dir) w
      = (Raise (Exc ValueError msg (Some e)), w')
    /\ fs w' !! cache_dir = Some Dir.
Proof.
  intros Hdir Hplain.
  unfold decompress_to_cache.
  unfold bind at 1, os_path_isfile. rewrite Harchive. simpl. rewrite Hname. simpl.
  unfold bind at 1, ret at 1.
  unfold bind at 1, try_except, bind at 1, tarfile_extractall.
  rewrite Harchive, Herror, Htar, Hplain. simpl.
  eexists _, _. split; [reflexivity|]. simpl.
  apply extract_keeps_destination, Hdir.
Qed.

(** A failed extraction into a directory of the caller whose path contains
    [tmp]: the directory is removed with all its contents, those that were
    there before the call included. *)
Lemma decompress_failure_removes_caller_directory (cache_dir : string) :
  fs w !! cache_dir = Some Dir ->
  str_contains "tmp" cache_dir = true ->
  exists msg w',
    decompress_to_cache E targz_path (Some cache_dir) w
      = (Raise (Exc ValueError msg (Some e)), w')
    /\ forall path, under cache_dir path = true -> fs w' !! path = None.
Proof.
  intros Hdir Htmp.
  unfold decompress_to_cache.
  unfold bind at 1, os_path_isfile. rewrite Harchive. simpl. rewrite Hname. simpl.
  unfold bind at 1, ret at 1.
  unfold bind at 1, try_except, bind at 1, tarfile_extractall.
  rewrite Harchive, Herror, Htar, Htmp.
  unfold bind at 1.
  edestruct (rmtree_removes cache_dir) as (w' & Hrm & _ & Hgone); [|rewrite Hrm].
  { simpl. apply extract_keeps_destination, Hdir. }
  simpl. eexists _, _. split; [reflexivity|]. exact Hgone.
Qed.
End Cleanup.

(** C2, at the input where the code departs from it.  The caller supplies
    the directory [/data/tmp_models], which holds [keep.bin]; the archive is
    corrupt.  The call raises [ValueError] with the archive error as its
    context, and the caller's directory is gone, [keep.bin] with it: only
    the archive is left in the file system. *)
Theorem decompress_failure_deletes_supplied_directory :
  fs Examples.models_world !! "/data/tmp_models" = Some Dir
  /\ fs Examples.models_world !! "/data/tmp_models/keep.bin" = Some (File [Byte.x00])
  /\ decompress_to_cache (Examples.env Examples.forbidden Examples.corrupt false)
       Examples.archive (Some "/data/tmp_models") Examples.models_world
     = (Raise (Exc ValueError
                 "An error occurred while decompressing fast-all-MiniLM-L6-v2.tar.gz: not a gzip file"
                 (Some (Exc ReadError "not a gzip file" None))),
        Examples.cached_world).
Proof. repeat split; vm_compute; reflexivity. Qed.

(** The same failure with a directory allocated by the call, and with a
    directory of the caller named without [tmp]. *)
Example decompress_failure_temporary :
  decompress_to_cache (Examples.env Examples.forbidden Examples.corrupt false)
    Examples.archive None Examples.models_world
  = (Raise (Exc ValueError
              "An error occurred while decompressing fast-all-MiniLM-L6-v2.tar.gz: not a gzip file"
              (Some (Exc ReadError "not a gzip file" None))),
     Examples.models_world).
Proof. vm_compute. reflexivity. Qed.

Example decompress_failure_plain_directory :
  let w := set_fs (<["/data/models" := Dir]> (fs Examples.cached_world)) Examples.cached_world in
  decompress_to_cache (Examples.env Examples.forbidden Examples.corrupt false)
    Examples.archive (Some "/data/models") w
  = (Raise (Exc ValueError
              "An error occurred while decompressing fast-all-MiniLM-L6-v2.tar.gz: not a gzip file"
              (Some (Exc ReadError "not a gzip file" None))),
     w).
Proof. vm_compute. reflexivity. Qed.

(** An extraction that fails with an error outside [tarfile.TarError] is not
    handled: the error propagates as it is and the directory allocated by the
    call stays, with what was extracted into it. *)
Example decompress_failure_disk_full :
  decompress_to_cache
    (Examples.env Examples.forbidden
       (mkTarResult [("config.json", File [])]
          (Some (Exc OSError "[Errno 28] No space left on device" None)))
       false)
    Examples.archive None Examples.cached_world
  = (Raise (Exc OSError "[Errno 28] No space left on device" None),
     set_fs (<["/tmp/tmpk3x9vq_a/config.json" := File []]>
               (<["/tmp/tmpk3x9vq_a" := Dir]> (fs Examples.cached_world)))
            Examples.cached_world).
Proof. vm_compute. reflexivity. Qed.

(** A successful extraction returns the directory. *)
Example decompress_success :
  decompress_to_cache
    (Examples.env Examples.forbidden (mkTarResult [("config.json", File [])] None) false)
    Examples.archive None Examples.cached_world
  = (Return "/tmp/tmpk3x9vq_a",
     mkWorld (<["/tmp/tmpk3x9vq_a/config.json" := File []]>
                (<["/tmp/tmpk3x9vq_a" := Dir]> (fs Examples.cached_world)))
             [] ["Files have been decompressed into /tmp/tmpk3x9vq_a"] [] []).
Proof. vm_compute. reflexivity. Qed.

(** *** Construction of the strategies *)

(** C3, on the code as it is.  For every [model_name], constructing
    [DefaultEmbedding] raises [TypeError] and leaves the world as it was: no
    request is issued and nothing is extracted.  The class inherits the
    abstract [encode] without defining it, so it cannot be instantiated; and
    [__init__] itself, run on any receiver, raises before the body of
    [download_file_from_gcs] starts, because the receiver takes the place of
    [url] and the URL that of [output_path], which the call also passes by
    keyword. *)
Theorem default_embedding_construction_raises {Tensor} (E : Env Tensor)
    (model_name : string) (w : World) :
  abstractmethods DefaultEmbedding.cls = ["encode"]
  /\ DefaultEmbedding.construct E model_name w
     = (Raise (Exc TypeError
                 "Can't instantiate abstract class DefaultEmbedding with abstract method encode"
                 None), w)
  /\ forall self : Value Tensor,
       DefaultEmbedding.__init__ E self model_name w
       = (Raise (Exc TypeError
                   "DefaultEmbedding.download_file_from_gcs() got multiple values for argument 'output_path'"
                   None), w).
Proof.
  split; [reflexivity|]. split.
  - unfold DefaultEmbedding.construct, instantiate. reflexivity.
  - intros self. unfold DefaultEmbedding.__init__, bind.
    by rewrite (call_bound_multiple_values self (download_file_from_gcs_def E)
                  _ _ "output_path" _ 1%nat w).
Qed.

(** Called as plain functions, with the arguments [__init__] means to pass,
    the fetcher and the cache do run: here on a world where the archive has
    been downloaded. *)
Example default_embedding_intended_calls :
  let E := Examples.env Examples.forbidden
             (mkTarResult [("config.json", File [])] None) false in
  (let* filepath :=
     call (download_file_from_gcs_def E)
       [VStr Examples.url] [("output_path", VStr Examples.archive)] in
   call (decompress_to_cache_def E) [] [("targz_path", filepath)])
    Examples.cached_world
  = (Return (VStr "/tmp/tmpk3x9vq_a"),
     mkWorld (<["/tmp/tmpk3x9vq_a/config.json" := File []]>
                (<["/tmp/tmpk3x9vq_a" := Dir]> (fs Examples.cached_world)))
             [] ["Files have been decompressed into /tmp/tmpk3x9vq_a"] [] []).
Proof. vm_compute. reflexivity. Qed.

(** The other strategy classes define [encode] and can be instantiated. *)
Lemma concrete_strategies :
  abstractmethods SentenceTransformersEmbedding.cls = []
  /\ abstractmethods GeneralTextEmbedding.cls = []
  /\ abstractmethods OpenAIEmbedding.cls = [].
Proof. repeat split. Qed.

(** C9. When [sentence_transformers] cannot be imported, constructing
    [SentenceTransformersEmbedding] raises [ImportError]; when
    [torch.nn.functional] or [transformers] cannot be imported, constructing
    [GeneralTextEmbedding] raises [ImportError]; both leave the world as it
    was, so the failure comes before any model is loaded.  And [encode], on
    an instance that construction returned, leaves the world as it is: it
    loads no model and uses the handles stored by the constructor. *)
Theorem construction_fails_fast_without_dependency {Tensor}
    {pool : TorchPool Tensor} {score : TorchScore Tensor}
    (E : Env Tensor) (model_name : string) (w : World) :
  (importable E "sentence_transformers" = false ->
   SentenceTransformersEmbedding.construct E model_name w
   = (Raise (Exc ImportError
               "Please install the sentence-transformers package to use this method."
               (Some (Exc ImportError "No module named 'sentence_transformers'" None))), w))
  /\ (importable E "torch.nn.functional" = false \/ importable E "transformers" = false ->
      exists cause,
        GeneralTextEmbedding.construct E model_name w
        = (Raise (Exc ImportError
                    "Please install the transformers package with torch to use this method."
                    (Some cause)), w))
  /\ (forall inst w1,
        SentenceTransformersEmbedding.construct E model_name w = (Return inst, w1) ->
        forall texts,
          SentenceTransformersEmbedding.encode E inst texts w1
          = (match st_encode E (mkHandle "SentenceTransformer" model_name) texts with
             | inl e => Raise e
             | inr t => Return t
             end, w1))
  /\ (forall inst w1,
        GeneralTextEmbedding.construct E model_name w = (Return inst, w1) ->
        forall texts res w2,
          GeneralTextEmbedding.encode E inst texts w1 = (res, w2) -> w2 = w1).
Proof.
  split; [|split; [|split]].
  - intros Hmissing.
    unfold SentenceTransformersEmbedding.construct, instantiate. simpl.
    unfold SentenceTransformersEmbedding.__init__, bind, try_except, import_module.
    rewrite Hmissing. reflexivity.
  - intros Hmissing.
    unfold GeneralTextEmbedding.construct, instantiate. simpl.
    unfold GeneralTextEmbedding.__init__.
    unfold bind at 1, try_except, bind at 1, import_module.
    destruct (importable E "torch.nn.functional") eqn:Htorch.
    + destruct Hmissing as [Hmissing|Hmissing]; [discriminate|].
      rewrite Hmissing. simpl. eexists. reflexivity.
    + simpl. eexists. reflexivity.
  - intros inst w1 Hnew texts.
    unfold SentenceTransformersEmbedding.construct, instantiate in Hnew. simpl in Hnew.
    unfold SentenceTransformersEmbedding.__init__, bind, try_except, import_module,
      load_pretrained in Hnew.
    destruct (importable E "sentence_transformers"); simpl in Hnew; [|discriminate].
    destruct (load_error E "SentenceTransformer" model_name); [discriminate|].
    inversion Hnew; subst. unfold SentenceTransformersEmbedding.encode. simpl.
    destruct (st_encode E _ texts); reflexivity.
  - intros inst w1 _ texts res w2 Hencode.
    unfold GeneralTextEmbedding.encode in Hencode.
    unfold bind at 1, try_except, import_module in Hencode.
    destruct (importable E "torch.nn.functional"); simpl in Hencode;
      [|by inversion Hencode].
    unfold bind at 1 in Hencode.
    destruct (tokenizer_call E (GeneralTextEmbedding.tokenizer inst) texts) as [e|batch];
      simpl in Hencode; [by inversion Hencode|].
    unfold bind at 1 in Hencode.
    destruct (model_forward E (GeneralTextEmbedding.model inst) batch) as [e|hidden];
      simpl in Hencode; [by inversion Hencode|].
    by inversion Hencode.
Qed.

Lemma construction_fails_fast_without_dependency_witness :
  let E := Examples.env Examples.forbidden Examples.corrupt false in
  importable E "sentence_transformers" = false
  /\ importable E "torch.nn.functional" = false
  /\ SentenceTransformersEmbedding.construct E "sentence-transformers/all-MiniLM-L6-v2"
       Examples.empty_world
     = (Raise (Exc ImportError
                 "Please install the sentence-transformers package to use this method."
                 (Some (Exc ImportError "No module named 'sentence_transformers'" None))),
        Examples.empty_world)
  /\ exists cause,
       GeneralTextEmbedding.construct E "thenlper/gte-large" Examples.empty_world
       = (Raise (Exc ImportError
                   "Please install the transformers package with torch to use this method."
                   (Some cause)), Examples.empty_world).
Proof.
  intros E. split; [reflexivity|]. split; [reflexivity|]. split.
  - destruct (construction_fails_fast_without_dependency E
                "sentence-transformers/all-MiniLM-L6-v2" Examples.empty_world)
      as (Hst & _ & _ & _).
    apply Hst. reflexivity.
  - destruct (construction_fails_fast_without_dependency E
                "thenlper/gte-large" Examples.empty_world)
      as (_ & Hgte & _ & _).
    apply Hgte. left. reflexivity.
Defined.

(** With the library installed, [SentenceTransformersEmbedding] loads the
    model the caller names, and [encode] delegates to it. *)
Example sentence_transformers_loads_named_model :
  let E := Examples.env Examples.forbidden Examples.corrupt true in
  (let* inst := SentenceTransformersEmbedding.construct E "all-mpnet-base-v2" in
   let* _ := SentenceTransformersEmbedding.encode E inst ["a"; "b"] in
   ret inst) Examples.empty_world
  = (Return (SentenceTransformersEmbedding.mkInstance
               (mkHandle "SentenceTransformer" "all-mpnet-base-v2")),
     mkWorld ∅ [] [] [] [("SentenceTransformer", "all-mpnet-base-v2")]).
Proof. vm_compute. reflexivity. Qed.

(** C10, on the code as it is.  Whatever [model_name] the caller passes, a
    [GeneralTextEmbedding] that construction returns holds the tokenizer and
    the model named [thenlper/gte-large], and these two are what was
    loaded. *)
Theorem general_text_embedding_loads_fixed_model {Tensor} (E : Env Tensor)
    (model_name : string) (w w' : World) (inst : GeneralTextEmbedding.Instance) :
  GeneralTextEmbedding.construct E model_name w = (Return inst, w') ->
  inst = GeneralTextEmbedding.mkInstance (mkHandle "AutoTokenizer" "thenlper/gte-large")
               (mkHandle "AutoModel" "thenlper/gte-large")
  /\ loaded w' = loaded w ++ [("AutoTokenizer", "thenlper/gte-large");
                              ("AutoModel", "thenlper/gte-large")].
Proof.
  unfold GeneralTextEmbedding.construct, instantiate. simpl.
  unfold GeneralTextEmbedding.__init__.
  unfold bind at 1, try_except, bind at 1, import_module.
  destruct (importable E "torch.nn.functional"); simpl; [|discriminate].
  destruct (importable E "transformers"); simpl; [|discriminate].
  unfold bind, load_pretrained. simpl.
  destruct (load_error E "AutoTokenizer" "thenlper/gte-large"); [discriminate|].
  destruct (load_error E "AutoModel" "thenlper/gte-large"); [discriminate|].
  intros [= <- <-]. simpl. split; [reflexivity|].
  by rewrite <- app_assoc.
Qed.

Lemma general_text_embedding_loads_fixed_model_witness :
  let E := Examples.env Examples.forbidden Examples.corrupt true in
  let inst := GeneralTextEmbedding.mkInstance (mkHandle "AutoTokenizer" "thenlper/gte-large")
                    (mkHandle "AutoModel" "thenlper/gte-large") in
  let w' := mkWorld ∅ [] [] [] [("AutoTokenizer", "thenlper/gte-large");
                                ("AutoModel", "thenlper/gte-large")] in
  GeneralTextEmbedding.construct E "bert-base-uncased" Examples.empty_world = (Return inst, w')
  /\ h_name (GeneralTextEmbedding.model inst) <> "bert-base-uncased"
  /\ loaded w' = [("AutoTokenizer", "thenlper/gte-large"); ("AutoModel", "thenlper/gte-large")].
Proof.
  intros E inst w'.
  assert (Hnew : GeneralTextEmbedding.construct E "bert-base-uncased" Examples.empty_world
                 = (Return inst, w')) by reflexivity.
  split; [exact Hnew|]. split; [discriminate|].
  apply (general_text_embedding_loads_fixed_model E "bert-base-uncased"
           Examples.empty_world w' inst Hnew).
Defined.

(** *** Pooling and scoring *)

(** C7, on the code as it is.  For every hidden-state tensor and attention
    mask, the call [GeneralTextEmbedding.average_pool(h, m)] raises
    [TypeError] and returns no pooled tensor: the function is a
    [@classmethod] with two parameters, and the class is passed before the
    two tensors. *)
Theorem average_pool_call_raises {Tensor} {pool : TorchPool Tensor}
    (last_hidden_states attention_mask : Tensor) (w : World) :
  GeneralTextEmbedding.average_pool last_hidden_states attention_mask w
  = (Raise average_pool_arity_error, w).
Proof.
  unfold GeneralTextEmbedding.average_pool.
  rewrite call_bound_too_many; [reflexivity|].
  simpl. lia.
Qed.

(** Without the class in front, the two tensors reach the body, which fills
    the masked positions with zero, sums over the tokens and divides by the
    sum of the mask. *)
Lemma average_pool_function {Tensor} {pool : TorchPool Tensor}
    (last_hidden_states attention_mask : Tensor) (w : World) :
  call GeneralTextEmbedding.average_pool_def
    [VTensor last_hidden_states; VTensor attention_mask] [] w
  = (Return
       (VTensor
          (true_divide
             (sum_dim1 (masked_fill last_hidden_states
                          (invert (to_bool (unsqueeze_last attention_mask))) 0%Q))
             (unsqueeze_last (sum_dim1 attention_mask)))), w).
Proof. reflexivity. Qed.

(** *** Pooling in exact arithmetic *)

Section ExactPooling.
Import Exact.
Local Open Scope Qc_scope.

(** The mask, after [[..., None]], [.bool()] and [~], marks the padding. *)
Lemma truthy_of_bool (b : bool) : truthy (of_bool b) = b.
Proof.
  destruct b; unfold truthy, of_bool; case_bool_decide as H; try done.
Qed.

Lemma mask_chain (ms : list bool) :
  map (map (fun a => of_bool (negb (truthy a))))
    (map (map (fun a => of_bool (truthy a))) (map (fun a => [a]) (map of_bool ms)))
  = map (fun b => [of_bool (negb b)]) ms.
Proof.
  rewrite !map_map. apply map_ext. intros b. simpl. by rewrite !truthy_of_bool.
Qed.

Lemma fill_rows (tokens : list (list Qc)) (ms : list bool) :
  zip_with (fill_token 0) tokens (map (fun b => [of_bool (negb b)]) ms)
  = zip_with keep_or_zero tokens ms.
Proof.
  revert ms. induction tokens as [|t tokens IH]; intros [|b ms]; simpl; try done.
  f_equal; [|apply IH].
  rewrite truthy_of_bool. destruct b; simpl; [done|].
  clear. induction t as [|a t IH]; simpl; [done | by rewrite IH].
Qed.

Lemma vadd_zero_l (n : nat) (row : list Qc) :
  length row = n -> vadd (replicate n 0) row = row.
Proof.
  revert n. induction row as [|a row IH]; intros n Hn; subst n; simpl; [done|].
  unfold vadd in *. simpl. f_equal; [apply Qcplus_0_l | by apply IH].
Qed.

Lemma sum_length (D : nat) (z : list Qc) (rows : list (list Qc)) :
  length z = D -> Forall (fun t => length t = D) rows ->
  length (foldr vadd z rows) = D.
Proof.
  intros Hz Hrows. induction Hrows as [|t rows Ht _ IH]; simpl; [exact Hz|].
  unfold vadd. rewrite length_zip_with. fold vadd. rewrite IH, Ht. lia.
Qed.

Lemma unmasked_width (D : nat) (tokens : list (list Qc)) (ms : list bool) :
  Forall (fun t => length t = D) tokens ->
  Forall (fun t => length t = D) (unmasked tokens ms).
Proof.
  intros Hall. revert ms. induction Hall as [|t tokens Ht _ IH]; intros [|[] ms]; simpl;
    try constructor; auto.
Qed.

Lemma sum_filled (D : nat) (tokens : list (list Qc)) (ms : list bool) :
  Forall (fun t => length t = D) tokens ->
  foldr vadd (replicate D 0) (zip_with keep_or_zero tokens ms)
  = foldr vadd (replicate D 0) (unmasked tokens ms).
Proof.
  intros Hall. revert ms. induction Hall as [|t tokens Ht Hall IH]; intros [|b ms]; simpl;
    try done.
  destruct b; simpl.
  - by rewrite IH.
  - rewrite IH, Ht. apply vadd_zero_l.
    apply sum_length; [apply length_replicate | by apply unmasked_width].
Qed.

Lemma widths (D : nat) (tokens : list (list Qc)) (ms : list bool) :
  Forall (fun t => length t = D) tokens ->
  length tokens = length ms ->
  true ∈ ms ->
  width (zip_with keep_or_zero tokens ms) = D /\ width (unmasked tokens ms) = D.
Proof.
  intros Hall. revert ms. induction Hall as [|t tokens Ht Hall IH]; intros [|b ms] Hlen Hin;
    simpl in *; try done.
  - by apply elem_of_nil in Hin.
  - destruct b; simpl; [done|].
    rewrite length_replicate. split; [done|].
    apply IH; [lia|]. apply elem_of_cons in Hin as [?|?]; done.
Qed.

Lemma mask_count (tokens : list (list Qc)) (ms : list bool) :
  length tokens = length ms ->
  foldr Qcplus 0 (map of_bool ms) = Qc_of_Z (Z.of_nat (length (unmasked tokens ms))).
Proof.
  revert ms. induction tokens as [|t tokens IH]; intros [|b ms] Hlen; simpl in *;
    try discriminate.
  { symmetry. apply Z2Qc_inj_0. }
  rewrite (IH ms) by lia. destruct b; simpl.
  - rewrite Nat2Z.inj_succ, <- Z.add_1_l, Z2Qc_inj_add, Z2Qc_inj_1. done.
  - apply Qcplus_0_l.
Qed.

Lemma pool_sequence (D : nat) (tokens : list (list Qc)) (ms : list bool) :
  Forall (fun t => length t = D) tokens ->
  length tokens = length ms ->
  true ∈ ms ->
  divide_row (sum_rows (zip_with (fill_token 0) tokens (map (fun b => [of_bool (negb b)]) ms)))
             [foldr Qcplus 0 (map of_bool ms)]
  = masked_mean tokens ms.
Proof.
  intros Hall Hlen Hin. unfold masked_mean, sum_rows. simpl.
  rewrite fill_rows.
  destruct (widths D tokens ms Hall Hlen Hin) as [-> ->].
  by rewrite (sum_filled D _ _ Hall), (mask_count tokens ms Hlen).
Qed.

(** X14. In exact arithmetic the body of [average_pool] computes, for every
    sequence of the batch, the mean of its token vectors that are not
    padding: hidden states of shape (batch, tokens, [D]), a mask of the
    same batch and token counts, at least one token kept per sequence. *)
Lemma average_pool_body_masked_mean (D : nat) (h : list (list (list Qc)))
    (mask : list (list bool)) :
  Forall2 (fun tokens ms =>
             Forall (fun t => length t = D) tokens /\ length tokens = length ms /\ true ∈ ms)
          h mask ->
  GeneralTextEmbedding.average_pool_body (T3 h) (T2 (map (map of_bool) mask))
  = T2 (zip_with masked_mean h mask).
Proof.
  intros Hshape. unfold GeneralTextEmbedding.average_pool_body. simpl. f_equal.
  induction Hshape as [|tokens ms h mask (Hall & Hlen & Hin) _ IH]; simpl; [done|].
  f_equal; [|exact IH].
  rewrite (mask_chain ms). by apply (pool_sequence D).
Qed.
End ExactPooling.

(** Two sequences of two tokens, the second padded after its first token:
    the pooled vectors are the mean of both tokens and the first token. *)
Lemma average_pool_body_masked_mean_witness :
  let q := Qc_of_Z in
  let h := [[[q 1; q 2]; [q 3; q 6]]; [[q 4; q 8]; [q 100; q 100]]] in
  let mask := [[true; true]; [true; false]] in
  Forall2 (fun tokens ms =>
             Forall (fun t => length t = 2%nat) tokens
             /\ length tokens = length ms /\ true ∈ ms) h mask
  /\ GeneralTextEmbedding.average_pool_body
       (Exact.T3 h) (Exact.T2 (map (map Exact.of_bool) mask))
     = Exact.T2 (zip_with Exact.masked_mean h mask)
  /\ zip_with Exact.masked_mean h mask = [[q 2; q 4]; [q 4; q 8]].
Proof.
  intros q h mask.
  assert (Hshape : Forall2 (fun tokens ms =>
                              Forall (fun t => length t = 2%nat) tokens
                              /\ length tokens = length ms /\ true ∈ ms) h mask)
    by repeat constructor.
  split; [exact Hshape|]. split.
  - exact (average_pool_body_masked_mean 2 h mask Hshape).
  - unfold Exact.masked_mean. simpl.
    repeat match goal with
           | |- _ :: _ = _ :: _ => f_equal
           | |- @eq Qc _ _ => apply Qc_is_canon; vm_compute; reflexivity
           end.
Defined.

(** C8, on the code as it is.  For every instance and every list of texts,
    [encode] raises and returns no score matrix: when [torch] is importable
    and the tokenizer and the forward pass succeed, the exception is the
    [TypeError] of the call of [average_pool]; the normalisation and the
    scaled product are never reached. *)
Theorem general_text_embedding_encode_raises {Tensor}
    {pool : TorchPool Tensor} {score : TorchScore Tensor}
    (E : Env Tensor) (self : GeneralTextEmbedding.Instance) (input_texts : list string)
    (w : World) :
  GeneralTextEmbedding.encode E self input_texts w
  = (Raise
       (if importable E "torch.nn.functional" then
          match tokenizer_call E (GeneralTextEmbedding.tokenizer self) input_texts with
          | inl e => e
          | inr batch_dict =>
              match model_forward E (GeneralTextEmbedding.model self) batch_dict with
              | inl e => e
              | inr _ => average_pool_arity_error
              end
          end
        else
          Exc ImportError "Please install Pytorch to use this method."
              (Some (Exc ImportError "No module named 'torch.nn.functional'" None))),
     w).
Proof.
  unfold GeneralTextEmbedding.encode.
  unfold bind at 1, try_except, import_module.
  destruct (importable E "torch.nn.functional"); simpl; [|reflexivity].
  unfold bind at 1.
  destruct (tokenizer_call E (GeneralTextEmbedding.tokenizer self) input_texts) as [e|batch];
    simpl; [reflexivity|].
  unfold bind at 1.
  destruct (model_forward E (GeneralTextEmbedding.model self) batch) as [e|hidden];
    simpl; reflexivity.
Qed.

(** On two identical texts, with every library installed. *)
Example encode_identical_texts :
  GeneralTextEmbedding.encode (Examples.env Examples.forbidden Examples.corrupt true)
    (GeneralTextEmbedding.mkInstance (mkHandle "AutoTokenizer" "thenlper/gte-large")
           (mkHandle "AutoModel" "thenlper/gte-large"))
    ["same text"; "same text"] Examples.empty_world
  = (Raise average_pool_arity_error, Examples.empty_world).
Proof. vm_compute. reflexivity. Qed.

(** ** Further properties *)

Section Fetch.
Context {Tensor : Type} (E : Env Tensor).
Variables (output_path : string) (progress_bar : option nat).

Lemma advanced_0 (l : list Bar) (b : nat) : alter (advanced 0) b l = l.
Proof. apply list_alter_id. intros [t n c]. unfold advanced. simpl. f_equal. lia. Qed.

Lemma advanced_add (j k : Z) (l : list Bar) (b : nat) :
  alter (advanced k) b (alter (advanced j) b l) = alter (advanced (j + k)) b l.
Proof.
  rewrite list_alter_alter_eq. apply list_alter_ext; [|reflexivity].
  intros [t n c] _. unfold advanced. simpl. f_equal. lia.
Qed.

(** The loop writes the bytes received after what the file holds, advances
    the bar by their number, and ends as the stream ends. *)
Lemma write_chunks_run (events : list StreamEvent) (w0 : World) (old : list Byte.byte) :
  fs w0 !! output_path = Some (File old) ->
  exists w1,
    write_chunks output_path progress_bar events w0
    = (match stream_error events with Some e => Raise e | None => Return tt end, w1)
    /\ fs w1 = <[output_path := File (old ++ received events)]> (fs w0)
    /\ bars w1 = match progress_bar with
                 | Some b => alter (advanced (Z.of_nat (length (received events)))) b (bars w0)
                 | None => bars w0
                 end
    /\ stdout w1 = stdout w0
    /\ requests_log w1 = requests_log w0
    /\ loaded w1 = loaded w0.
Proof.
  revert w0 old. induction events as [|[chunk|e] events IH]; intros w0 old Hopen.
  - exists w0. simpl. rewrite app_nil_r, (insert_id _ _ _ Hopen).
    repeat split; try reflexivity. destruct progress_bar; [by rewrite advanced_0|done].
  - destruct chunk as [|c chunk].
    + destruct (IH w0 old Hopen) as (w1 & Hrun & Hfs & Hbars & Hout & Hlog & Hld).
      exists w1. simpl. unfold bind at 1. simpl. rewrite Hrun. auto 10.
    + set (k := Z.of_nat (length (c :: chunk))).
      set (wb := match progress_bar with
                 | Some b => set_bars (alter (advanced k) b (bars w0)) w0
                 | None => w0
                 end).
      set (w0' := set_fs (<[output_path := File (old ++ c :: chunk)]> (fs w0)) wb).
      destruct (IH w0' (old ++ c :: chunk)) as (w1 & Hrun & Hfs & Hbars & Hout & Hlog & Hld).
      { subst w0'. simpl. apply lookup_insert_eq. }
      exists w1. split; [|split; [|split; [|split; [|split]]]].
      * simpl. unfold bind at 1, bind at 1.
        subst w0' wb k. destruct progress_bar as [b|]; unfold bar_update, file_write; simpl;
          rewrite Hopen; exact Hrun.
      * rewrite Hfs. subst w0'. simpl. rewrite insert_insert_eq.
        subst wb. destruct progress_bar; simpl; by rewrite <- app_assoc.
      * rewrite Hbars. subst w0' wb k. destruct progress_bar as [b|]; simpl; [|done].
        rewrite advanced_add. f_equal. f_equal.
        change (received (Chunk (c :: chunk) :: events)) with ((c :: chunk) ++ received events).
        rewrite length_app. lia.
      * rewrite Hout. subst w0' wb. by destruct progress_bar.
      * rewrite Hlog. subst w0' wb. by destruct progress_bar.
      * rewrite Hld. subst w0' wb. by destruct progress_bar.
  - exists w0. simpl. rewrite app_nil_r, (insert_id _ _ _ Hopen).
    repeat split; try reflexivity. destruct progress_bar; [by rewrite advanced_0|done].
Qed.

Lemma finished_after_advanced (k : Z) (l : list Bar) (b : nat) :
  alter (fun x => mkBar (bar_total x) (bar_n x) true) b (alter (advanced k) b l)
  = alter (finished k) b l.
Proof.
  rewrite list_alter_alter_eq. apply list_alter_ext; [|reflexivity].
  intros [t n c] _. reflexivity.
Qed.

(** The [try] statement, when the file can be opened. *)
Lemma download_try_run (r : Response) (w0 : World) :
  open_error E output_path = None ->
  exists w1,
    download_try E output_path progress_bar r w0 = (stream_result (iter_content r), w1)
    /\ fs w1 = <[output_path := File (received (iter_content r))]> (fs w0)
    /\ bars w1 = match progress_bar with
                 | Some b =>
                     alter (finished (Z.of_nat (length (received (iter_content r))))) b (bars w0)
                 | None => bars w0
                 end
    /\ stdout w1 = stdout w0 ++ stream_report (iter_content r)
    /\ requests_log w1 = requests_log w0
    /\ loaded w1 = loaded w0.
Proof.
  intros Hopen.
  destruct (write_chunks_run (iter_content r)
              (set_fs (<[output_path := File []]> (fs w0)) w0) [])
    as (w1 & Hrun & Hfs & Hbars & Hout & Hlog & Hld).
  { simpl. apply lookup_insert_eq. }
  simpl in Hfs, Hbars, Hout, Hlog, Hld. rewrite insert_insert_eq in Hfs.
  unfold download_try, try_finally, try_except, bind at 1, open_wb. rewrite Hopen.
  unfold bind at 1. rewrite Hrun.
  unfold stream_result, stream_report.
  destruct (stream_error (iter_content r)) as [e|].
  - destruct (isinstance_Exception e).
    + unfold bind, print, ret. simpl.
      destruct progress_bar as [b|]; simpl; eexists; (split; [reflexivity|]); simpl;
        rewrite ?Hbars, ?finished_after_advanced, Hfs, Hout, Hlog, Hld; auto 10.
    + destruct progress_bar as [b|]; simpl; eexists; (split; [reflexivity|]); simpl;
        rewrite ?Hbars, ?finished_after_advanced, Hfs, Hout, Hlog, Hld, ?app_nil_r; auto 10.
  - unfold bind, ret. simpl.
    destruct progress_bar as [b|]; simpl; eexists; (split; [reflexivity|]); simpl;
      rewrite ?Hbars, ?finished_after_advanced, Hfs, Hout, Hlog, Hld, ?app_nil_r; auto 10.
Qed.
End Fetch.

Section FetchRun.
Context {Tensor : Type} (E : Env Tensor).

(** A call that reaches the streaming and can open the file. *)
Lemma download_streams (url output_path : string) (show_progress : bool) (w : World)
    (r : Response) (n : Z) :
  fs w !! output_path = None ->
  requests_response E url = inr r ->
  status_code r = 200 ->
  announced_size r = Some n ->
  open_error E output_path = None ->
  exists w',
    download_file_from_gcs E url output_path show_progress w
    = (fetch_result output_path (iter_content r), w')
    /\ fs w' = <[output_path := File (received (iter_content r))]> (fs w)
    /\ bars w' = bars w ++
                 (if negb (n =? 0) && show_progress
                  then [mkBar n (Z.of_nat (length (received (iter_content r)))) true]
                  else [])
    /\ stdout w' = stdout w ++ size_warning url n ++ stream_report (iter_content r)
    /\ requests_log w' = requests_log w ++ [url]
    /\ loaded w' = loaded w.
Proof.
  intros Hfresh Hresp Hstatus Hsize Hopen.
  unfold download_file_from_gcs.
  unfold bind at 1, os_path_exists. rewrite Hfresh.
  unfold bind at 1, requests_get. rewrite Hresp, Hstatus. simpl.
  assert (Hint : int_content_length r = ret n).
  { unfold announced_size in Hsize. unfold int_content_length.
    destruct (content_length r); inversion Hsize; reflexivity. }
  rewrite Hint. unfold bind at 1, ret at 1.
  set (w1 := set_requests_log (requests_log w ++ [url]) w).
  set (warn := if n =? 0 then _ else _).
  assert (Hwarn : exists w2, warn w1 = (Return tt, w2)
            /\ fs w2 = fs w /\ bars w2 = bars w
            /\ stdout w2 = stdout w ++ size_warning url n
            /\ requests_log w2 = requests_log w ++ [url] /\ loaded w2 = loaded w).
  { subst warn. unfold size_warning. destruct (n =? 0); eexists; (split; [reflexivity|]);
      simpl; rewrite ?app_nil_r; auto 10. }
  destruct Hwarn as (w2 & Hwarn & Hfs2 & Hbars2 & Hout2 & Hlog2 & Hld2).
  unfold bind at 1. rewrite Hwarn.
  assert (Hend : forall (res : Outcome (Flow (option string))) w3,
            res = stream_result (iter_content r) ->
            (let* flow := (fun _ : World => (res, w3)) in
             match flow with
             | Returned v => ret v
             | Fallthrough => ret (Some output_path)
             end) w3 = (fetch_result output_path (iter_content r), w3)).
  { intros res w3 ->. unfold stream_result, fetch_result, bind.
    destruct (stream_error (iter_content r)) as [e|]; [|reflexivity].
    destruct (isinstance_Exception e); reflexivity. }
  destruct (negb (n =? 0) && show_progress) eqn:Hshow.
  - unfold bind at 1. unfold bind at 1, tqdm, ret at 1.
    set (w3 := set_bars _ w2).
    destruct (download_try_run E output_path (Some (length (bars w2))) r w3 Hopen)
      as (w4 & Hrun & Hfs & Hbars & Hout & Hlog & Hld).
    exists w4. split.
    { unfold bind. rewrite Hrun. specialize (Hend _ w4 eq_refl).
      unfold bind in Hend. exact Hend. }
    subst w3. simpl in *.
    rewrite Hfs, Hbars, Hout, Hlog, Hld, Hfs2, Hout2, Hlog2, Hld2.
    rewrite bar_alter_last, Hbars2, <- app_assoc. auto 10.
  - unfold bind at 1, ret at 1.
    destruct (download_try_run E output_path None r w2 Hopen)
      as (w4 & Hrun & Hfs & Hbars & Hout & Hlog & Hld).
    exists w4. split.
    { unfold bind. rewrite Hrun. specialize (Hend _ w4 eq_refl).
      unfold bind in Hend. exact Hend. }
    rewrite Hfs, Hbars, Hout, Hlog, Hld, Hfs2, Hout2, Hlog2, Hld2, Hbars2.
    rewrite app_nil_r, <- app_assoc. auto 10.
Qed.
End FetchRun.



(** X2. When the stream raises an exception of class [Exception], the
    call returns [None] and the bytes received before it stay in the file at
    the destination; a later call for that destination, whatever its URL,
    returns the path of this truncated file without issuing a request. *)
Theorem download_failure_leaves_truncated_file {Tensor} (E : Env Tensor)
    (url output_path : string) (show_progress : bool) (w : World)
    (r : Response) (n : Z) (e : PyExc) :
  fs w !! output_path = None ->
  requests_response E url = inr r ->
  status_code r = 200 ->
  announced_size r = Some n ->
  open_error E output_path = None ->
  stream_error (iter_content r) = Some e ->
  isinstance_Exception e = true ->
  exists w',
    download_file_from_gcs E url output_path show_progress w = (Return None, w')
    /\ fs w' !! output_path = Some (File (received (iter_content r)))
    /\ forall (E2 : Env Tensor) (url2 : string) (show2 : bool),
         download_file_from_gcs E2 url2 output_path show2 w'
         = (Return (Some output_path), w').
Proof.
  intros Hfresh Hresp Hstatus Hsize Hopen Hend Hcls.
  destruct (download_streams E url output_path show_progress w r n
              Hfresh Hresp Hstatus Hsize Hopen)
    as (w' & Hrun & Hfs & _).
  unfold fetch_result in Hrun. rewrite Hend, Hcls in Hrun.
  assert (Hfile : fs w' !! output_path = Some (File (received (iter_content r)))).
  { rewrite Hfs. apply lookup_insert_eq. }
  exists w'. split; [exact Hrun|]. split; [exact Hfile|].
  intros E2 url2 show2.
  unfold download_file_from_gcs, bind, os_path_exists. by rewrite Hfile.
Qed.

Lemma download_failure_leaves_truncated_file_witness :
  let E := Examples.env Examples.broken Examples.corrupt false in
  let e := Exc ChunkedEncodingError "Connection broken" None in
  fs Examples.empty_world !! Examples.archive = None
  /\ stream_error (iter_content Examples.broken) = Some e
  /\ isinstance_Exception e = true
  /\ exists w',
       download_file_from_gcs E Examples.url Examples.archive true Examples.empty_world
       = (Return None, w')
       /\ fs w' !! Examples.archive = Some (File [Byte.x1f; Byte.x8b])
       /\ forall (E2 : Env unit) (url2 : string) (show2 : bool),
            download_file_from_gcs E2 url2 Examples.archive show2 w'
            = (Return (Some Examples.archive), w').
Proof.
  intros E e. repeat (split; [reflexivity|]).
  apply (download_failure_leaves_truncated_file E Examples.url Examples.archive true
           Examples.empty_world Examples.broken 2048 e); reflexivity.
Defined.



Section Footprint.
Context {Tensor : Type} (E : Env Tensor).
Variables (url output_path : string) (show_progress : bool).

Lemma download_try_footprint (progress_bar : option nat) (r : Response)
    (w0 w1 : World) (res : Outcome (Flow (option string))) :
  download_try E output_path progress_bar r w0 = (res, w1) ->
  wrote_at_most output_path (fs w0) (fs w1)
  /\ requests_log w1 = requests_log w0
  /\ (forall e, res = Raise e -> isinstance_Exception e = false).
Proof.
  intros Hrun.
  destruct (open_error E output_path) as [e0|] eqn:Hopen.
  - unfold download_try, try_finally, try_except, bind at 1, open_wb in Hrun.
    rewrite Hopen in Hrun.
    destruct (isinstance_Exception e0) eqn:Hcls;
      destruct progress_bar; simpl in Hrun; inversion Hrun; subst; simpl;
      (split; [by left|]); (split; [reflexivity|]); intros e [= <-]; done.
  - destruct (download_try_run E output_path progress_bar r w0 Hopen)
      as (w1' & Hrun' & Hfs & _ & _ & Hlog & _).
    rewrite Hrun in Hrun'. injection Hrun' as Hres <-.
    split; [right; eauto|]. split; [exact Hlog|].
    intros e Hraise. rewrite Hraise in Hres. unfold stream_result in Hres.
    destruct (stream_error (iter_content r)) as [e'|]; [|discriminate].
    destruct (isinstance_Exception e') eqn:Hcls; [discriminate|].
    by injection Hres as ->.
Qed.

(** Whatever a call does and however it ends. *)
Lemma download_footprint (w w' : World) (res : Outcome (option string)) :
  download_file_from_gcs E url output_path show_progress w = (res, w') ->
  wrote_at_most output_path (fs w) (fs w')
  /\ requests_log w' = match fs w !! output_path with
                       | Some _ => requests_log w
                       | None => requests_log w ++ [url]
                       end
  /\ (forall e, res = Raise e -> isinstance_Exception e = true ->
        fs w' = fs w
        /\ (requests_response E url = inl e
            \/ exists r raw,
                 requests_response E url = inr r
                 /\ status_code r = 200
                 /\ content_length r = CLMalformed raw
                 /\ exc_class e = ValueError)).
Proof.
  unfold download_file_from_gcs.
  unfold bind at 1, os_path_exists.
  destruct (fs w !! output_path) as [node|] eqn:Hnode.
  { intros [= <- <-]. split; [by left|]. split; [reflexivity|]. discriminate. }
  unfold bind at 1, requests_get.
  destruct (requests_response E url) as [e0|r] eqn:Hresp.
  { intros [= <- <-]. simpl. split; [by left|]. split; [reflexivity|].
    intros e [= <-] _. auto. }
  destruct (status_code r =? 403) eqn:H403.
  { unfold bind, print, ret. intros [= <- <-]. simpl.
    split; [by left|]. split; [reflexivity|]. discriminate. }
  destruct (status_code r =? 200) eqn:H200; simpl.
  2:{ unfold bind, print, ret. intros [= <- <-]. simpl.
      split; [by left|]. split; [reflexivity|]. discriminate. }
  apply Z.eqb_eq in H200.
  destruct (announced_size r) as [size|] eqn:Hsize.
  2:{ assert (Hraw : exists raw, content_length r = CLMalformed raw).
      { unfold announced_size in Hsize. destruct (content_length r); try discriminate. eauto. }
      destruct Hraw as [raw Hraw].
      unfold bind at 1, int_content_length. rewrite Hraw.
      intros [= <- <-]. simpl. split; [by left|]. split; [reflexivity|].
      intros e [= <-] _. split; [reflexivity|]. right. eauto 10. }
  assert (Hint : int_content_length r = ret size).
  { unfold announced_size in Hsize. unfold int_content_length.
    destruct (content_length r); inversion Hsize; reflexivity. }
  rewrite Hint. unfold bind at 1, ret at 1.
  set (w1 := set_requests_log (requests_log w ++ [url]) w).
  set (warn := if size =? 0 then _ else _).
  assert (Hwarn : exists w2, warn w1 = (Return tt, w2)
            /\ fs w2 = fs w /\ requests_log w2 = requests_log w ++ [url])
    by (subst warn; destruct (size =? 0); eexists; (split; [reflexivity|]); auto).
  destruct Hwarn as (w2 & Hwarn & Hfs2 & Hlog2).
  unfold bind at 1; rewrite Hwarn.
  unfold bind at 1.
  set (mkbar := if negb (size =? 0) && show_progress then _ else _).
  assert (Hbar : exists pb w3, mkbar w2 = (Return pb, w3)
            /\ fs w3 = fs w /\ requests_log w3 = requests_log w ++ [url])
    by (subst mkbar; destruct (negb (size =? 0) && show_progress);
        [unfold bind, tqdm, ret|unfold ret]; eexists _, _;
        (split; [reflexivity|]); auto).
  destruct Hbar as (pb & w3 & Hbar & Hfs3 & Hlog3).
  rewrite Hbar. unfold bind.
  destruct (download_try E output_path pb r w3) as [resf wf] eqn:Hf.
  apply download_try_footprint in Hf as (Hfs & Hlog & Hcls).
  rewrite Hfs3 in Hfs. rewrite Hlog3 in Hlog.
  destruct resf as [[|v]|e0]; intros [= <- <-];
    (split; [exact Hfs|]); (split; [exact Hlog|]); try discriminate.
  intros e [= <-] He. by rewrite (Hcls e0 eq_refl) in He.
Qed.
End Footprint.



(** X5. However a call ends, it has issued no request when something
    exists at the destination, and otherwise exactly one, to [url]: there is
    no retry. *)
Theorem download_issues_at_most_one_request {Tensor} (E : Env Tensor)
    (url output_path : string) (show_progress : bool) (w : World) :
  requests_log (download_file_from_gcs E url output_path show_progress w).2
  = match fs w !! output_path with
    | Some _ => requests_log w
    | None => requests_log w ++ [url]
    end.
Proof.
  destruct (download_file_from_gcs E url output_path show_progress w) as [res w'] eqn:Hrun.
  by apply download_footprint in Hrun as (_ & Hlog & _).
Qed.

(** X6. An exception of class [Exception] that a call raises comes from
    the request itself or from reading a malformed [content-length] header,
    never from the streaming; and then nothing was written. *)
Theorem download_exception_origin {Tensor} (E : Env Tensor)
    (url output_path : string) (show_progress : bool) (w w' : World) (e : PyExc) :
  download_file_from_gcs E url output_path show_progress w = (Raise e, w') ->
  isinstance_Exception e = true ->
  fs w' = fs w
  /\ (requests_response E url = inl e
      \/ exists r raw,
           requests_response E url = inr r
           /\ status_code r = 200
           /\ content_length r = CLMalformed raw
           /\ exc_class e = ValueError).
Proof.
  intros Hrun Hcls.
  apply download_footprint in Hrun as (_ & _ & Hraise).
  by apply Hraise.
Qed.

Lemma download_exception_origin_witness :
  let e := Exc ConnectionError "Max retries exceeded" None in
  let w' := set_requests_log [Examples.url] Examples.empty_world in
  download_file_from_gcs Examples.offline Examples.url Examples.archive true
    Examples.empty_world = (Raise e, w')
  /\ isinstance_Exception e = true
  /\ fs w' = fs Examples.empty_world
  /\ requests_response Examples.offline Examples.url = inl e.
Proof.
  intros e w'.
  assert (Hrun : download_file_from_gcs Examples.offline Examples.url Examples.archive true
                   Examples.empty_world = (Raise e, w')) by reflexivity.
  split; [exact Hrun|]. split; [reflexivity|].
  destruct (download_exception_origin Examples.offline Examples.url Examples.archive true
              Examples.empty_world w' e Hrun eq_refl) as [Hfs _].
  split; [exact Hfs|reflexivity].
Defined.

Section CacheRun.
Context {Tensor : Type} (E : Env Tensor).

Lemma extract_keeps_paths (dest : string) (ms : list (string * Node))
    (f : gmap string Node) (path : string) :
  is_Some (f !! path) -> is_Some (foldl (extract_member dest) f ms !! path).
Proof.
  revert f. induction ms as [|m ms IH]; intros f Hpath; simpl; [exact Hpath|].
  apply IH. unfold extract_member.
  rewrite !lookup_insert_is_Some'. auto.
Qed.

Lemma cache_directory_fresh (cache_dir : option string) (f : gmap string Node) (d : string) :
  cache_directory E cache_dir f = Some d ->
  cache_dir = Some d \/ (cache_dir = None /\ f !! d = None /\ str_contains "tmp" d = true).
Proof.
  destruct cache_dir as [d'|]; simpl.
  - intros [= ->]. by left.
  - intros Hpick. right. split; [reflexivity|]. by apply (mkdtemp_pick_fresh E _ _ _ Hpick).
Qed.

(** A call on a file named as an archive: the cache directory is settled,
    the archive is read and its members extracted; then the call returns,
    or raises what the reading raised when that is no [TarError]. *)
Lemma decompress_run (targz_path : string) (cache_dir : option string) (w : World)
    (content : list Byte.byte) (d : string) :
  fs w !! targz_path = Some (File content) ->
  str_endswith ".tar.gz" targz_path = true ->
  cache_directory E cache_dir (fs w) = Some d ->
  let w1 := set_fs (extracted cache_dir d (tar_members (tar_read E content)) (fs w)) w in
  match tar_error (tar_read E content) with
  | None =>
      decompress_to_cache E targz_path cache_dir w
      = (Return d, set_stdout (stdout w ++ ["Files have been decompressed into " +:+ d]) w1)
  | Some e =>
      isinstance_TarError e = false ->
      decompress_to_cache E targz_path cache_dir w = (Raise e, w1)
  end.
Proof.
  intros Harchive Hname Hdir w1. subst w1.
  assert (Hgo : decompress_to_cache E targz_path cache_dir w
                = match tar_error (tar_read E content) with
                  | None =>
                      (Return d,
                       set_stdout (stdout w ++ ["Files have been decompressed into " +:+ d])
                         (set_fs (extracted cache_dir d (tar_members (tar_read E content))
                                    (fs w)) w))
                  | Some e =>
                      if isinstance_TarError e
                      then decompress_to_cache E targz_path cache_dir w
                      else (Raise e,
                            set_fs (extracted cache_dir d (tar_members (tar_read E content))
                                      (fs w)) w)
                  end).
  { destruct (tar_error (tar_read E content)) as [e|] eqn:Herr;
      [destruct (isinstance_TarError e) eqn:Htar; [reflexivity|]|].
    all: unfold decompress_to_cache.
    all: unfold bind at 1, os_path_isfile; rewrite Harchive; simpl; rewrite Hname; simpl.
    all: destruct (cache_directory_fresh _ _ _ Hdir) as [-> | (-> & Hfresh & _)].
    all: unfold extracted.
    1,3: unfold bind at 1, ret at 1;
         unfold bind at 1, try_except, bind at 1, tarfile_extractall;
         rewrite Harchive, Herr, ?Htar; reflexivity.
    all: simpl in Hdir; unfold bind at 1, tempfile_mkdtemp; rewrite Hdir.
    all: unfold bind at 1, try_except, bind at 1, tarfile_extractall; simpl.
    all: rewrite lookup_insert_ne by (intros ->; congruence).
    all: rewrite Harchive, Herr, ?Htar; reflexivity. }
  destruct (tar_error (tar_read E content)) as [e|]; [|exact Hgo].
  intros Htar. by rewrite Htar in Hgo.
Qed.

(** A call that returns has gone that way. *)
Lemma decompress_returns (targz_path : string) (cache_dir : option string) (w w' : World)
    (d : string) :
  decompress_to_cache E targz_path cache_dir w = (Return d, w') ->
  exists content,
    fs w !! targz_path = Some (File content)
    /\ str_endswith ".tar.gz" targz_path = true
    /\ cache_directory E cache_dir (fs w) = Some d
    /\ tar_error (tar_read E content) = None
    /\ fs w' = extracted cache_dir d (tar_members (tar_read E content)) (fs w).
Proof.
  intros Hrun.
  destruct (fs w !! targz_path) as [[content|]|] eqn:Harchive.
  2,3: unfold decompress_to_cache, bind at 1, os_path_isfile in Hrun;
       rewrite Harchive in Hrun; discriminate.
  destruct (str_endswith ".tar.gz" targz_path) eqn:Hname.
  2: unfold decompress_to_cache, bind at 1, os_path_isfile in Hrun;
     rewrite Harchive in Hrun; simpl in Hrun; rewrite Hname in Hrun; discriminate.
  destruct (cache_directory E cache_dir (fs w)) as [d'|] eqn:Hdir.
  - pose proof (decompress_run targz_path cache_dir w content d' Harchive Hname Hdir) as Hfwd.
    simpl in Hfwd.
    destruct (tar_error (tar_read E content)) as [e|] eqn:Herr.
    + destruct (isinstance_TarError e) eqn:Htar.
      * exfalso. clear Hfwd. revert Hrun.
        unfold decompress_to_cache.
        unfold bind at 1, os_path_isfile. rewrite Harchive. simpl. rewrite Hname. simpl.
        unfold bind at 1.
        destruct cache_dir as [c|]; simpl in Hdir.
        -- unfold ret at 1. unfold bind at 1, try_except, bind at 1, tarfile_extractall.
           rewrite Harchive, Herr, Htar.
           unfold bind at 1.
           destruct (str_contains "tmp" c);
             [destruct (shutil_rmtree c _) as [[[]|?] ?]|]; discriminate.
        -- unfold tempfile_mkdtemp. rewrite Hdir.
           unfold bind at 1, try_except, bind at 1, tarfile_extractall. simpl.
           destruct (mkdtemp_pick_fresh E _ _ _ Hdir) as [Hfresh _].
           rewrite lookup_insert_ne by (intros ->; congruence).
           rewrite Harchive, Herr, Htar.
           unfold bind at 1.
           destruct (str_contains "tmp" d');
             [destruct (shutil_rmtree d' _) as [[[]|?] ?]|]; discriminate.
      * rewrite (Hfwd eq_refl) in Hrun. discriminate.
    + rewrite Hfwd in Hrun. injection Hrun as -> <-. eauto 10.
  - exfalso. destruct cache_dir as [c|]; simpl in Hdir; [discriminate|].
    revert Hrun. unfold decompress_to_cache.
    unfold bind at 1, os_path_isfile. rewrite Harchive. simpl. rewrite Hname. simpl.
    unfold bind at 1, tempfile_mkdtemp. rewrite Hdir. discriminate.
Qed.
End CacheRun.



(** X9. Two calls in a row without a cache directory that both return,
    return different directories: the first did not exist before, and both
    exist after the second call.  Nothing is reused from one call to the
    next. *)
Theorem decompress_allocates_new_directory_each_call {Tensor} (E : Env Tensor)
    (targz_path : string) (w w1 w2 : World) (d1 d2 : string) :
  decompress_to_cache E targz_path None w = (Return d1, w1) ->
  decompress_to_cache E targz_path None w1 = (Return d2, w2) ->
  d1 <> d2
  /\ fs w !! d1 = None
  /\ is_Some (fs w2 !! d1)
  /\ fs w2 !! d2 = Some Dir.
Proof.
  intros Hfirst Hsecond.
  apply decompress_returns in Hfirst as (c1 & _ & _ & Hd1 & _ & Hfs1).
  apply decompress_returns in Hsecond as (c2 & _ & _ & Hd2 & _ & Hfs2).
  destruct (cache_directory_fresh E _ _ _ Hd1) as [|(_ & Hfresh1 & _)]; [discriminate|].
  destruct (cache_directory_fresh E _ _ _ Hd2) as [|(_ & Hfresh2 & _)]; [discriminate|].
  assert (Hdir1 : fs w1 !! d1 = Some Dir).
  { rewrite Hfs1. unfold extracted. apply extract_keeps_destination, lookup_insert_eq. }
  assert (Hne : d1 <> d2) by (intros ->; congruence).
  split; [exact Hne|]. split; [exact Hfresh1|].
  rewrite Hfs2. unfold extracted. split.
  - apply extract_keeps_paths. rewrite lookup_insert_is_Some'. right. by rewrite Hdir1.
  - apply extract_keeps_destination, lookup_insert_eq.
Qed.

Lemma decompress_allocates_new_directory_each_call_witness :
  let E := Examples.two_names in
  let w1 := (decompress_to_cache E Examples.archive None Examples.cached_world).2 in
  let w2 := (decompress_to_cache E Examples.archive None w1).2 in
  decompress_to_cache E Examples.archive None Examples.cached_world
  = (Return "/tmp/tmpk3x9vq_a", w1)
  /\ decompress_to_cache E Examples.archive None w1 = (Return "/tmp/tmpp0w2ml_z", w2)
  /\ "/tmp/tmpk3x9vq_a" <> "/tmp/tmpp0w2ml_z"
  /\ fs Examples.cached_world !! "/tmp/tmpk3x9vq_a" = None
  /\ is_Some (fs w2 !! "/tmp/tmpk3x9vq_a")
  /\ fs w2 !! "/tmp/tmpp0w2ml_z" = Some Dir.
Proof.
  intros E w1 w2.
  assert (H1 : decompress_to_cache E Examples.archive None Examples.cached_world
               = (Return "/tmp/tmpk3x9vq_a", w1)) by (vm_compute; reflexivity).
  assert (H2 : decompress_to_cache E Examples.archive None w1
               = (Return "/tmp/tmpp0w2ml_z", w2)) by (vm_compute; reflexivity).
  split; [exact H1|]. split; [exact H2|].
  exact (decompress_allocates_new_directory_each_call E Examples.archive
           Examples.cached_world w1 w2 _ _ H1 H2).
Defined.




(** X13. A [SentenceTransformersEmbedding] that construction returns holds
    the model named by [model_name]; that one model is what was loaded, and
    the file system and the requests are as they were. *)
Theorem sentence_transformers_loads_the_model_named {Tensor} (E : Env Tensor)
    (model_name : string) (w w' : World) (inst : SentenceTransformersEmbedding.Instance) :
  SentenceTransformersEmbedding.construct E model_name w = (Return inst, w') ->
  inst = SentenceTransformersEmbedding.mkInstance (mkHandle "SentenceTransformer" model_name)
  /\ loaded w' = loaded w ++ [("SentenceTransformer", model_name)]
  /\ fs w' = fs w
  /\ requests_log w' = requests_log w.
Proof.
  unfold SentenceTransformersEmbedding.construct, instantiate. simpl.
  unfold SentenceTransformersEmbedding.__init__, bind, try_except, import_module,
    load_pretrained.
  destruct (importable E "sentence_transformers"); simpl; [|discriminate].
  destruct (load_error E "SentenceTransformer" model_name); [discriminate|].
  intros [= <- <-]. auto.
Qed.

Lemma sentence_transformers_loads_the_model_named_witness :
  let E := Examples.env Examples.forbidden Examples.corrupt true in
  let inst := SentenceTransformersEmbedding.mkInstance
                (mkHandle "SentenceTransformer" "all-mpnet-base-v2") in
  let w' := set_loaded [("SentenceTransformer", "all-mpnet-base-v2")] Examples.empty_world in
  SentenceTransformersEmbedding.construct E "all-mpnet-base-v2" Examples.empty_world
  = (Return inst, w')
  /\ loaded w' = [("SentenceTransformer", "all-mpnet-base-v2")]
  /\ fs w' = fs Examples.empty_world.
Proof.
  intros E inst w'.
  assert (Hnew : SentenceTransformersEmbedding.construct E "all-mpnet-base-v2"
                   Examples.empty_world = (Return inst, w')) by reflexivity.
  split; [exact Hnew|].
  destruct (sentence_transformers_loads_the_model_named E "all-mpnet-base-v2"
              Examples.empty_world w' inst Hnew) as (_ & Hld & Hfs & _).
  split; [exact Hld | exact Hfs].
Defined.



(** X7. An HTTP error leaves nothing behind that a later call would
    take for the file: two calls in a row for a destination that does not
    exist, both answered with a status other than 200, both return [None],
    and two requests are issued. *)
Theorem download_http_error_is_retried {Tensor} (E : Env Tensor)
    (url output_path : string) (show_progress : bool) (w : World) (r : Response) :
  fs w !! output_path = None ->
  requests_response E url = inr r ->
  status_code r <> 200 ->
  exists w',
    (let* first := download_file_from_gcs E url output_path show_progress in
     let* second := download_file_from_gcs E url output_path show_progress in
     ret (first, second)) w
    = (Return (None, None), w')
    /\ requests_log w' = requests_log w ++ [url; url]
    /\ fs w' = fs w.
Proof.
  intros Hfresh Hresp Hstatus.
  assert (Hone : forall w0, fs w0 !! output_path = None ->
            exists w1,
              download_file_from_gcs E url output_path show_progress w0 = (Return None, w1)
              /\ requests_log w1 = requests_log w0 ++ [url]
              /\ fs w1 = fs w0).
  { intros w0 Hfresh0.
    unfold download_file_from_gcs, bind, os_path_exists, requests_get.
    rewrite Hfresh0, Hresp.
    destruct (status_code r =? 403) eqn:H403.
    - eexists. split; [reflexivity|]. simpl. auto.
    - assert (H200 : (status_code r =? 200) = false) by (by apply Z.eqb_neq).
      rewrite H200. simpl. eexists. split; [reflexivity|]. simpl. auto. }
  destruct (Hone w Hfresh) as (w1 & Hrun1 & Hlog1 & Hfs1).
  destruct (Hone w1) as (w2 & Hrun2 & Hlog2 & Hfs2); [by rewrite Hfs1|].
  exists w2. split.
  - unfold bind at 1. rewrite Hrun1. unfold bind at 1. rewrite Hrun2. reflexivity.
  - rewrite Hlog2, Hlog1, Hfs2, Hfs1, <- app_assoc. auto.
Qed.

Lemma download_http_error_is_retried_witness :
  let E := Examples.env Examples.unavailable Examples.corrupt false in
  fs Examples.empty_world !! Examples.archive = None
  /\ status_code Examples.unavailable <> 200
  /\ exists w',
       (let* first := download_file_from_gcs E Examples.url Examples.archive true in
        let* second := download_file_from_gcs E Examples.url Examples.archive true in
        ret (first, second)) Examples.empty_world
       = (Return (None, None), w')
       /\ requests_log w' = [Examples.url; Examples.url]
       /\ fs w' = fs Examples.empty_world.
Proof.
  intros E. split; [reflexivity|]. split; [discriminate|].
  apply (download_http_error_is_retried E Examples.url Examples.archive true
           Examples.empty_world Examples.unavailable); [reflexivity|reflexivity|discriminate].
Defined.

(** X11. When the archive cannot even be opened as one, nothing is extracted;
    if the caller supplied a cache directory whose path contains [tmp] and
    which does not exist, the removal of that directory fails, and the call
    raises the [FileNotFoundError] of the removal, with the archive error as
    its context, in place of the [ValueError]; the world is as it was. *)
Theorem decompress_cleanup_failure_masks_error {Tensor} (E : Env Tensor)
    (targz_path cache_dir : string) (w : World) (content : list Byte.byte) (e : PyExc) :
  fs w !! targz_path = Some (File content) ->
  str_endswith ".tar.gz" targz_path = true ->
  tar_read E content = mkTarResult [] (Some e) ->
  isinstance_TarError e = true ->
  str_contains "tmp" cache_dir = true ->
  fs w !! cache_dir = None ->
  decompress_to_cache E targz_path (Some cache_dir) w
  = (Raise (Exc FileNotFoundError
              ("[Errno 2] No such file or directory: '" +:+ cache_dir +:+ "'")
              (Some e)), w).
Proof.
  intros Harchive Hname Hread Htar Htmp Habsent.
  unfold decompress_to_cache.
  unfold bind at 1, os_path_isfile. rewrite Harchive. simpl. rewrite Hname. simpl.
  unfold bind at 1, ret at 1.
  unfold bind at 1, try_except, bind at 1, tarfile_extractall.
  rewrite Harchive, Hread. simpl. rewrite Htar, Htmp.
  unfold bind at 1, shutil_rmtree. simpl. rewrite Habsent. simpl.
  destruct w. reflexivity.
Qed.

Lemma decompress_cleanup_failure_masks_error_witness :
  let E := Examples.env Examples.forbidden Examples.corrupt false in
  let e := Exc ReadError "not a gzip file" None in
  fs Examples.cached_world !! Examples.archive = Some (File [Byte.x1f; Byte.x8b])
  /\ str_endswith ".tar.gz" Examples.archive = true
  /\ tar_read E [Byte.x1f; Byte.x8b] = mkTarResult [] (Some e)
  /\ isinstance_TarError e = true
  /\ str_contains "tmp" "/tmp/models" = true
  /\ fs Examples.cached_world !! "/tmp/models" = None
  /\ decompress_to_cache E Examples.archive (Some "/tmp/models") Examples.cached_world
     = (Raise (Exc FileNotFoundError "[Errno 2] No such file or directory: '/tmp/models'"
                 (Some e)), Examples.cached_world).
Proof.
  intros E e. repeat (split; [reflexivity|]).
  apply (decompress_cleanup_failure_masks_error E Examples.archive "/tmp/models"
           Examples.cached_world [Byte.x1f; Byte.x8b] e); reflexivity.
Defined.
